(** * traffic.plugins.leaflet: the Leaflet plugin of the traffic library

    A shallow embedding of [src/traffic/plugins/leaflet.py].  The module
    turns domain objects of the core package (flights, flight plans,
    airspaces, airports, state vectors, points) into ipyleaflet widgets and
    patches [Map.add_layer] so that a map accepts those objects directly.

    Layout: the data the module reads and builds; a state-and-exception monad
    over the heap of widgets; the six converters; the class table and
    [_onload]; [map_add_layer]; the two [map_leaflet] functions; theorems. *)

From stdpp Require Import gmap strings list fin_maps.

Open Scope string_scope.
Open Scope list_scope.

(** ** Data of the collaborators, as far as this module observes it *)

(** A Python float.  The module only moves coordinates around, it never
    computes with them, so any carrier with equality does: integers stand
    for the floats. *)
Definition float := Z.
Bind Scope Z_scope with float.

(** Plain values met as keyword arguments: [zoom=7], [weight=3],
    [color="red"], [center=(lat, lon)], [title=...]. *)
Inductive Lit :=
| LNone
| LInt (n : Z)
| LFloat (x : float)
| LStr (s : string)
| LPair (a b : Lit).

(** [**kwargs]: a dict with string keys. *)
Abbreviation Kwargs := (gmap string Lit).

(** [{**a, **b}]: the entries of [b] win. *)
Definition dict_merge (a b : Kwargs) : Kwargs := b ∪ a.

Module shapely.

(** One item of [geometry.coords]: a tuple of two or three floats. *)
Inductive Coord :=
| XY (x y : float)
| XYZ (x y z : float).

(** What [FlightPlan.shape] may hold: a [LineString], or a collection of
    line strings when some part of the plan could not be resolved. *)
Inductive Lines :=
| LineString (coords : list Coord)
| MultiLineString (geoms : list (list Coord)).

(** What [Airspace.flatten()] returns; each polygon is given by the
    coordinates of its exterior ring. *)
Inductive Surface :=
| Polygon (exterior : list Coord)
| MultiPolygon (geoms : list (list Coord)).

Definition geom_type (s : Surface) : string :=
  match s with
  | Polygon _ => "Polygon"
  | MultiPolygon _ => "MultiPolygon"
  end.

End shapely.

(** An opaque [pandas] / [geopandas] table; only handed over. *)
Inductive DataFrame := Frame (id : nat).

(** The result of [flight.query("latitude == latitude")] when some row
    qualifies: a flight again, of which the module reads [.at()] only.
    [at_last = None] stands for [.at()] returning [None]. *)
Record Selection := { at_last : option (float * float) }.

(** A [Flight].  Its [shape] is the [LineString] built from [Flight.coords],
    whose items are [(longitude, latitude, altitude)] triples; it is [None]
    when the trajectory has no line to draw.  [query_latitude] is
    [flight.query("latitude == latitude")], an [Optional[Flight]]: source
    line 48 tests it, source line 89 calls [.at()] on it.  A flight that
    comes back has rows and counts as true. *)
Record Flight := {
  flight_shape : option (list (float * float * float));
  query_latitude : option Selection;
  flight_mean : float * float;   (* data.latitude.mean(), data.longitude.mean() *)
  _info_html : string
}.

Record FlightPlan := { flightplan_shape : option shapely.Lines }.

Record Airspace := { flatten : shapely.Surface }.

(** An [Airport]: [runways] is the table behind
    [_openstreetmap().query('aeroway == "runway"').data], [None] when no row
    is a runway. *)
Record Airport := {
  latlon : float * float;
  runways : option DataFrame
}.

(** A [PointMixin].  [point_name] is [None] when [hasattr(point, "name")] is
    false, and holds [str(point.name)] otherwise; [point_repr] is
    [repr(point)]. *)
Record PointMixin := {
  latitude : float;
  longitude : float;
  point_name : option string;
  point_repr : string
}.

(** [StateVectors] iterates over points that carry a [callsign]. *)
Record StateVectors := { sv_points : list (PointMixin * Lit) }.

Record Traffic := {
  flights : list Flight;
  traffic_mean : float * float
}.

(** ** Python values and the widget heap *)

(** The objects handed to [add_layer] and returned by the converters.
    Widgets live in a heap and are passed by reference: the layer a
    converter returns, the layer put on the map and the layer that later
    receives a popup are one object. *)
#[warnings="-register-all"]
Inductive Value :=
| VNone
| VRef (l : nat)
| VAirport (a : Airport)
| VAirspace (a : Airspace)
| VFlight (f : Flight)
| VFlightPlan (p : FlightPlan)
| VPoint (p : PointMixin)
| VStateVectors (sv : StateVectors)
| VTraffic (t : Traffic)
| VFlightIterator (segments : list Value).

(** [locations=] of a [Polyline] or [Polygon]: a list of [(lat, lon)] pairs,
    or a list of such lists. *)
Inductive Locations :=
| Path (points : list (float * float))
| Paths (parts : list (list (float * float))).

(** A widget, by the arguments its constructor was given. *)
Inductive Widget :=
| HTML (value : string)
| Polyline (locations : Locations) (options : Kwargs)
| Polygon (locations : Locations) (options : Kwargs)
| Marker (location : float * float) (options : Kwargs)
| MarkerCluster (markers : list Value)
| GeoData (geo_dataframe : DataFrame) (style : Kwargs)
| Map (options : Kwargs) (layers : list Value).

(** A heap cell: the widget and its [popup] attribute. *)
Record Obj := { widget : Widget; popup : Value }.

Abbreviation World := (list Obj).

(** ** Exceptions and the monad *)

Inductive Exn :=
| AttributeError
| TypeError
| Exception (name : string).   (* whatever else a collaborator raises *)

Inductive Res (A : Type) :=
| Ok (a : A) (w : World)
| Raise (e : Exn).
Arguments Ok {A} a w.
Arguments Raise {A} e.

Definition M (A : Type) : Type := World → Res A.

Definition ret {A} (a : A) : M A := fun w => Ok a w.
Definition raise {A} (e : Exn) : M A := fun _ => Raise e.
Definition bind {A B} (c : M A) (k : A → M B) : M B :=
  fun w => match c w with
           | Ok a w' => k a w'
           | Raise e => Raise e
           end.

Declare Scope py_scope.
Delimit Scope py_scope with py.
Notation "x <- c ;; k" := (bind c (fun x => k))
  (at level 100, c at next level, right associativity) : py_scope.
Notation "c ;; k" := (bind c (fun _ => k))
  (at level 100, right associativity) : py_scope.
Open Scope py_scope.

(** [for x in xs: body(x)] *)
Fixpoint for_each {A} (body : A → M unit) (xs : list A) : M unit :=
  match xs with
  | [] => ret tt
  | x :: rest => body x ;; for_each body rest
  end.

(** [list(f(x) for x in xs)] when [f] has effects. *)
Fixpoint list_of {A B} (f : A → M B) (xs : list A) : M (list B) :=
  match xs with
  | [] => ret []
  | x :: rest => y <- f x ;; ys <- list_of f rest ;; ret (y :: ys)
  end.

(** A constructor call: the new widget is allocated at the end of the heap,
    with no popup. *)
Definition new (wd : Widget) : M Value :=
  fun w => Ok (VRef (length w)) (w ++ [{| widget := wd; popup := VNone |}]).

(** [f(name=..., **kwargs)]: Python rejects a keyword given twice. *)
Definition keyword_free (name : string) (kwargs : Kwargs) : M unit :=
  match kwargs !! name with
  | Some _ => raise TypeError
  | None => ret tt
  end.

(** [target.popup = p].  [None] has no attributes to set.  Attributes put on
    a domain object are not tracked. *)
Definition set_popup (target p : Value) : M unit :=
  match target with
  | VNone => raise AttributeError
  | VRef l =>
      fun w => Ok tt (alter (fun o => {| widget := widget o; popup := p |}) l w)
  | _ => ret tt
  end.

(** [label.value = s] on an [HTML] widget. *)
Definition set_value (target : Value) (s : string) : M unit :=
  match target with
  | VNone => raise AttributeError
  | VRef l =>
      fun w => Ok tt (alter (fun o => match widget o with
                                      | HTML _ => {| widget := HTML s; popup := popup o |}
                                      | _ => o
                                      end) l w)
  | _ => ret tt
  end.

(** ** The converters *)

(** [(lat, lon) for (lon, lat, *_) in coords]: the first two entries of each
    tuple, swapped. *)
Definition swap_lon_lat (c : shapely.Coord) : float * float :=
  match c with
  | shapely.XY lon lat => (lat, lon)
  | shapely.XYZ lon lat _ => (lat, lon)
  end.

(** [dict(fill_opacity=0, weight=3)] *)
Definition line_defaults : Kwargs :=
  {[ "fill_opacity" := LInt 0; "weight" := LInt 3 ]}.

(** Source lines 133-158. *)
Definition flight_leaflet (flight : Flight) (kwargs : Kwargs) : M Value :=
  let shape := flight_shape flight in
  match shape with
  | None => ret VNone
  | Some coords =>
      let kwargs := dict_merge line_defaults kwargs in
      keyword_free "locations" kwargs ;;
      new (Polyline (Path (map (fun '(lon, lat, _) => (lat, lon)) coords)) kwargs)
  end.

(** Source lines 161-187. *)
Definition flightplan_leaflet (flightplan : FlightPlan) (kwargs : Kwargs)
  : M Value :=
  let shape := flightplan_shape flightplan in
  match shape with
  | None => ret VNone
  | Some shape =>
      let coords :=
        match shape with
        | shapely.LineString coords => Path (map swap_lon_lat coords)
        | shapely.MultiLineString geoms => Paths (map (map swap_lon_lat) geoms)
        end in
      let kwargs := dict_merge line_defaults kwargs in
      keyword_free "locations" kwargs ;;
      new (Polyline coords kwargs)
  end.

(** [shape.exterior]: a collection of polygons has no such attribute. *)
Definition exterior (shape : shapely.Surface) : M (list shapely.Coord) :=
  match shape with
  | shapely.Polygon ext => ret ext
  | shapely.MultiPolygon _ => raise AttributeError
  end.

(** [for piece in shape]: a single polygon is not iterable. *)
Definition pieces (shape : shapely.Surface) : M (list (list shapely.Coord)) :=
  match shape with
  | shapely.Polygon _ => raise TypeError
  | shapely.MultiPolygon geoms => ret geoms
  end.

(** Source lines 190-211. *)
Definition airspace_leaflet (airspace : Airspace) (kwargs : Kwargs) : M Value :=
  let shape := flatten airspace in
  let kwargs := dict_merge {[ "weight" := LInt 3 ]} kwargs in
  coords <-
    (if String.eqb (shapely.geom_type shape) "Polygon"
     then ext <- exterior shape ;; ret (Path (map swap_lon_lat ext))
     else ps <- pieces shape ;; ret (Paths (map (map swap_lon_lat) ps))) ;;
  keyword_free "locations" kwargs ;;
  new (Polygon coords kwargs).

(** Source lines 214-220. *)
Definition airport_leaflet (airport : Airport) (kwargs : Kwargs) : M Value :=
  match runways airport with
  | None => raise (Exception "TraitError")   (* GeoData refuses the table *)
  | Some df =>
      new (GeoData df
             (dict_merge {[ "color" := LStr "#79706e"; "weight" := LInt 6 ]} kwargs))
  end.

(** Source lines 236-257. *)
Definition point_leaflet (point : PointMixin) (kwargs : Kwargs) : M Value :=
  let default : Kwargs :=
    match point_name point with
    | Some name => {[ "title" := LStr name ]}
    | None => ∅
    end in
  let kwargs := dict_merge default kwargs in
  keyword_free "location" kwargs ;;
  marker <- new (Marker (latitude point, longitude point) kwargs) ;;
  label <- new (HTML "") ;;
  set_value label (point_repr point) ;;
  set_popup marker label ;;
  ret marker.

(** Source lines 223-233.  The call at line 232 gives [point] by position
    and [title] by name: a keyword argument of either name is refused. *)
Definition sv_leaflet (sv : StateVectors) (kwargs : Kwargs) : M Value :=
  point_list <-
    list_of (fun '(p, callsign) =>
               keyword_free "point" kwargs ;;
               keyword_free "title" kwargs ;;
               point_leaflet p (<["title" := callsign]> kwargs))
            (sv_points sv) ;;
  new (MarkerCluster point_list).

(** ** Classes and their attributes *)

Module cls.

(** The classes the module imports and touches. *)
Inductive t :=
| Airport | Airspace | Flight | FlightPlan | PointMixin | StateVectors
| Traffic | FlightIterator | Map.

#[global] Instance eq_dec : EqDecision t.
Proof. solve_decision. Defined.

(** Method resolution order, restricted to these classes: in the core
    package an [Airport] is a [PointMixin]. *)
Definition mro (c : t) : list t :=
  match c with
  | Airport => [Airport; PointMixin]
  | _ => [c]
  end.

End cls.

(** What a class attribute may hold: a function of this module, or anything
    defined elsewhere, known by name only. *)
Inductive Function :=
| fn_traffic_map_leaflet
| fn_flight_map_leaflet
| fn_flight_leaflet
| fn_flightplan_leaflet
| fn_airspace_leaflet
| fn_airport_leaflet
| fn_sv_leaflet
| fn_point_leaflet
| fn_map_add_layer
| fn_foreign (qualname : string).

(** The attribute dictionary of every class. *)
Definition ClassTable := cls.t → gmap string Function.

(** [setattr(c, name, v)] *)
Definition setattr (c : cls.t) (name : string) (v : Function) (T : ClassTable)
  : ClassTable :=
  fun c' => if decide (c' = c) then <[name := v]> (T c') else T c'.

(** [getattr(c, name, None)] on a class: the first class of the resolution
    order that has the attribute. *)
Definition getattr (T : ClassTable) (c : cls.t) (name : string)
  : option Function :=
  head (omap (fun k => T k !! name) (cls.mro c)).

(** Source lines 285-296. *)
Definition _onload (T : ClassTable) : ClassTable :=
  let T := setattr cls.Airport "leaflet" fn_airport_leaflet T in
  let T := setattr cls.Airspace "leaflet" fn_airspace_leaflet T in
  let T := setattr cls.Flight "leaflet" fn_flight_leaflet T in
  let T := setattr cls.FlightPlan "leaflet" fn_flightplan_leaflet T in
  let T := setattr cls.PointMixin "leaflet" fn_point_leaflet T in
  let T := setattr cls.StateVectors "leaflet" fn_sv_leaflet T in
  let T := setattr cls.Flight "map_leaflet" fn_flight_map_leaflet T in
  let T := setattr cls.Traffic "map_leaflet" fn_traffic_map_leaflet T in
  setattr cls.Map "add_layer" fn_map_add_layer T.

(** The class of a domain object.  [None] and widgets belong to none of the
    classes of the table but [Map]; no instance test of this module asks for
    [Map]. *)
Definition class_of (v : Value) : option cls.t :=
  match v with
  | VNone | VRef _ => None
  | VAirport _ => Some cls.Airport
  | VAirspace _ => Some cls.Airspace
  | VFlight _ => Some cls.Flight
  | VFlightPlan _ => Some cls.FlightPlan
  | VPoint _ => Some cls.PointMixin
  | VStateVectors _ => Some cls.StateVectors
  | VTraffic _ => Some cls.Traffic
  | VFlightIterator _ => Some cls.FlightIterator
  end.

Definition isinstance (v : Value) (c : cls.t) : bool :=
  match class_of v with
  | Some k => bool_decide (c ∈ cls.mro k)
  | None => false
  end.

(** ** The patched [add_layer] *)

(** The classes tested at source lines 266-273. *)
Definition layer_classes : list cls.t :=
  [cls.Airport; cls.Airspace; cls.Flight; cls.FlightPlan;
   cls.PointMixin; cls.StateVectors].

Section AddLayer.

(** [elt.leaflet] applied to the keyword arguments, whatever the attribute
    is bound to when the call is made. *)
Variable leaflet : Value → Kwargs → M Value.

(** [Map.add_layer] of ipyleaflet as the module found it at import time
    (source line 260). *)
Variable _old_add_layer : Value → Value → M Value.

(** Source lines 263-282.  The second test, [isinstance(elt,
    FlightIterator)], is the match on the constructor; the iterator is
    given by the segments it yields. *)
Fixpoint map_add_layer (_map elt : Value) (kwargs : Kwargs) {struct elt}
  : M Value :=
  if existsb (isinstance elt) layer_classes
  then
    layer <- leaflet elt kwargs ;;
    _old_add_layer _map layer ;;
    ret layer
  else
    match elt with
    | VFlightIterator segments =>
        (fix each (segs : list Value) : M Value :=
           match segs with
           | [] => ret VNone
           | segment :: rest =>
               map_add_layer _map segment kwargs ;; each rest
           end) segments
    | _ => _old_add_layer _map elt
    end.

End AddLayer.

(** ** Calls through the class table *)

(** A value of the [highlight] dict: the name of a [Flight] attribute, a
    flight, or a function from flights to optional flights. *)
Inductive Highlight :=
| HStr (name : string)
| HFlight (f : Flight)
| HCall (g : Flight → option Flight).

(** The [airport] argument: [None], a name, or an [Airport]. *)
Inductive AirportArg :=
| NoAirport
| AirportName (name : string)
| AirportObj (a : Airport).

Section Loaded.

(** The class attributes at the time of the call. *)
Variable T : ClassTable.

Variable _old_add_layer : Value → Value → M Value.

(** A call of anything this module does not define, or of one of its
    functions on an object it was not written for. *)
Variable other_call : Function → list Value → Kwargs → M Value.

(** [traffic.data.airports[name]] *)
Variable airports : string → option Airport.

(** A converter called as a method: the object is bound to the first
    parameter of the converter, so a keyword argument of that name is
    refused. *)
Definition apply_converter (fn : Function) (elt : Value) (kwargs : Kwargs)
  : M Value :=
  match fn, elt with
  | fn_airport_leaflet, VAirport a =>
      keyword_free "airport" kwargs ;; airport_leaflet a kwargs
  | fn_airspace_leaflet, VAirspace a =>
      keyword_free "airspace" kwargs ;; airspace_leaflet a kwargs
  | fn_flight_leaflet, VFlight f =>
      keyword_free "flight" kwargs ;; flight_leaflet f kwargs
  | fn_flightplan_leaflet, VFlightPlan p =>
      keyword_free "flightplan" kwargs ;; flightplan_leaflet p kwargs
  | fn_point_leaflet, VPoint p =>
      keyword_free "point" kwargs ;; point_leaflet p kwargs
  | fn_sv_leaflet, VStateVectors sv =>
      keyword_free "sv" kwargs ;; sv_leaflet sv kwargs
  | _, _ => other_call fn [elt] kwargs
  end.

(** [elt.leaflet] applied to keyword arguments: the attribute is looked up
    on the class of [elt]. *)
Definition call_leaflet (elt : Value) (kwargs : Kwargs) : M Value :=
  match class_of elt with
  | None => raise AttributeError
  | Some k =>
      match getattr T k "leaflet" with
      | None => raise AttributeError
      | Some fn => apply_converter fn elt kwargs
      end
  end.

(** [m.add_layer(elt, ...)] on a [Map].  When the attribute is
    map_add_layer, the map and the element are bound to its parameters
    [_map] and [elt], so a keyword argument of either name is refused. *)
Definition call_add_layer (m elt : Value) (kwargs : Kwargs) : M Value :=
  match getattr T cls.Map "add_layer" with
  | None => raise AttributeError
  | Some fn_map_add_layer =>
      keyword_free "_map" kwargs ;;
      keyword_free "elt" kwargs ;;
      map_add_layer call_leaflet _old_add_layer m elt kwargs
  | Some fn => other_call fn [m; elt] kwargs
  end.

(** [airports[airport] if isinstance(airport, str) else airport] *)
Definition resolve_airport (airport : AirportArg) : option Airport :=
  match airport with
  | NoAirport => None
  | AirportName name => airports name
  | AirportObj a => Some a
  end.

(** Source lines 33-40 and 95-102. *)
Definition with_center (_airport : option Airport) (mean : float * float)
  (kwargs : Kwargs) : Kwargs :=
  match kwargs !! "center" with
  | Some _ => kwargs
  | None =>
      match _airport with
      | Some a =>
          <["center" := LPair (LFloat (latlon a).1) (LFloat (latlon a).2)]> kwargs
      | None => <["center" := LPair (LFloat mean.1) (LFloat mean.2)]> kwargs
      end
  end.

(** [Map(zoom=zoom, ...)] followed by the airport layer, source lines 42-45
    and 104-107. *)
Definition new_map (zoom : Z) (_airport : option Airport) (kwargs : Kwargs)
  : M Value :=
  keyword_free "zoom" kwargs ;;
  m <- new (Map (<["zoom" := LInt zoom]> kwargs) []) ;;
  match _airport with
  | Some a => call_add_layer m (VAirport a) ∅ ;; ret m
  | None => ret m
  end.

(** One turn of the loop over [highlight.items()], source lines 56-68 and
    116-128.  A name is looked up on [Flight]; what it is bound to is
    called on the flight. *)
Definition highlight_item (m : Value) (flight : Flight)
  (item : string * Highlight) : M unit :=
  let '(color, value) := item in
  match value with
  | HStr name =>
      match getattr T cls.Flight name with
      | None => ret tt
      | Some fn =>
          f <- match fn with
               | fn_flight_leaflet => flight_leaflet flight ∅
               | _ => other_call fn [VFlight flight] ∅
               end ;;
          match f with
          | VNone => ret tt
          | _ => call_add_layer m f {[ "color" := LStr color ]} ;; ret tt
          end
      end
  | HFlight f => call_add_layer m (VFlight f) {[ "color" := LStr color ]} ;; ret tt
  | HCall g =>
      match g flight with
      | None => ret tt
      | Some f => call_add_layer m (VFlight f) {[ "color" := LStr color ]} ;; ret tt
      end
  end.

(** [elt.popup = HTML(); elt.popup.value = flight._info_html()] *)
Definition attach_info (elt : Value) (flight : Flight) : M unit :=
  label <- new (HTML "") ;;
  set_popup elt label ;;
  set_value label (_info_html flight).

(** Source lines 18-70. *)
Definition traffic_map_leaflet (traffic : Traffic) (zoom : Z)
  (highlight : option (list (string * Highlight))) (airport : AirportArg)
  (kwargs : Kwargs) : M Value :=
  let _airport := resolve_airport airport in
  let kwargs := with_center _airport (traffic_mean traffic) kwargs in
  m <- new_map zoom _airport kwargs ;;
  for_each
    (fun flight =>
       (match query_latitude flight with
        | Some _ =>
            elt <- call_add_layer m (VFlight flight) ∅ ;;
            attach_info elt flight
        | None => ret tt
        end) ;;
       for_each (highlight_item m flight) (default [] highlight))
    (flights traffic) ;;
  ret m.

(** Source lines 73-130. *)
Definition flight_map_leaflet (flight : Flight) (zoom : Z)
  (highlight : option (list (string * Highlight))) (airport : AirportArg)
  (kwargs : Kwargs) : M Value :=
  match query_latitude flight with
  | None => raise AttributeError   (* None has no [at] *)
  | Some selection =>
      let last_position := at_last selection in
      match last_position with
      | None => ret VNone
      | Some _ =>
          let _airport := resolve_airport airport in
          let kwargs := with_center _airport (flight_mean flight) kwargs in
          m <- new_map zoom _airport kwargs ;;
          elt <- call_add_layer m (VFlight flight) ∅ ;;
          attach_info elt flight ;;
          for_each (highlight_item m flight) (default [] highlight) ;;
          ret m
      end
  end.

End Loaded.

(** The default of the [zoom] parameter. *)
Definition default_zoom : Z := 7.

(** ** ipyleaflet's own [add_layer], for running the model

    The layer is appended to the layers of the map and nothing is returned;
    [None] is rejected ([layer.model_id] is read first). *)
Definition ipyleaflet_add_layer (m layer : Value) : M Value :=
  match m, layer with
  | VRef l, VRef _ =>
      fun w => Ok VNone
                 (alter (fun o => match widget o with
                                  | Map opts layers =>
                                      {| widget := Map opts (layers ++ [layer]);
                                         popup := popup o |}
                                  | _ => o
                                  end) l w)
  | _, _ => raise AttributeError
  end.

(** No foreign call is needed in the examples. *)
Definition no_other_call (fn : Function) (args : list Value) (kwargs : Kwargs)
  : M Value :=
  raise (Exception "not modelled").

(** ** Sample objects *)

(** A flight of two positions. *)
Definition sample_flight : Flight :=
  {| flight_shape := Some [(2, 48, 1000); (3, 49, 2000)]%Z;
     query_latitude := Some {| at_last := Some (49, 3)%Z |};
     flight_mean := (48, 2)%Z;
     _info_html := "<b>AFR1</b>" |}.

(** A flight of one position: it has a last position, and no line to draw. *)
Definition single_position_flight : Flight :=
  {| flight_shape := None;
     query_latitude := Some {| at_last := Some (48, 2)%Z |};
     flight_mean := (48, 2)%Z;
     _info_html := "<b>AFR2</b>" |}.

(** A flight without any valid position. *)
Definition blind_flight : Flight :=
  {| flight_shape := None;
     query_latitude := None;
     flight_mean := (0, 0)%Z;
     _info_html := "<b>AFR3</b>" |}.

Definition sample_plan : FlightPlan :=
  {| flightplan_shape :=
       Some (shapely.LineString [shapely.XY 2 48; shapely.XYZ 3 49 0]) |}.

Definition unresolved_plan : FlightPlan := {| flightplan_shape := None |}.

Definition sample_airspace : Airspace :=
  {| flatten :=
       shapely.Polygon
         [shapely.XY 0 40; shapely.XY 1 40; shapely.XY 1 41; shapely.XY 0 40] |}.

Definition split_airspace : Airspace :=
  {| flatten :=
       shapely.MultiPolygon
         [[shapely.XY 0 40; shapely.XY 1 40; shapely.XY 1 41; shapely.XY 0 40];
          [shapely.XY 5 45; shapely.XY 6 45; shapely.XY 6 46; shapely.XY 5 45]] |}.

Definition sample_point : PointMixin :=
  {| latitude := 48; longitude := 2;
     point_name := Some "NARAK"; point_repr := "NARAK (48, 2)" |}.

(** The classes before the plugin is loaded: [Map] has ipyleaflet's own
    [add_layer], nothing else is set. *)
Definition fresh_classes : ClassTable :=
  fun c =>
    match c with
    | cls.Map => {[ "add_layer" := fn_foreign "ipyleaflet.Map.add_layer" ]}
    | _ => ∅
    end.

(** A heap holding one empty map. *)
Definition one_map : World := [{| widget := Map ∅ []; popup := VNone |}].

(** ** Notions and objects for the further properties *)

(** What a converter may do to the heap: it leaves the widgets that are
    there as they are and puts new ones behind them; what it returns is
    [None] or one of the new widgets. *)
Definition builds_only (w : World) (r : Res Value) : Prop :=
  match r with
  | Raise _ => True
  | Ok v w' =>
      w `prefix_of` w'
      ∧ (v = VNone ∨ ∃ l, v = VRef l ∧ (length w ≤ l < length w')%nat)
  end.

(** A highlight that shows nothing for a flight: a name that [Flight] does
    not have, or a function that gives [None] on the flight. *)
Definition skipped (T : ClassTable) (flight : Flight)
  (item : string * Highlight) : Prop :=
  match item.2 with
  | HStr name => getattr T cls.Flight name = None
  | HFlight _ => False
  | HCall g => g flight = None
  end.

(** The nine attributes that [_onload] sets. *)
Definition onload_entries : list (cls.t * string) :=
  [(cls.Airport, "leaflet"); (cls.Airspace, "leaflet"); (cls.Flight, "leaflet");
   (cls.FlightPlan, "leaflet"); (cls.PointMixin, "leaflet");
   (cls.StateVectors, "leaflet"); (cls.Flight, "map_leaflet");
   (cls.Traffic, "map_leaflet"); (cls.Map, "add_layer")].

Definition unresolved_parts_plan : FlightPlan :=
  {| flightplan_shape :=
       Some (shapely.MultiLineString
               [[shapely.XY 2 48; shapely.XY 3 49];
                [shapely.XYZ 5 50 0; shapely.XY 6 51]]) |}.

Definition sample_airport : Airport :=
  {| latlon := (43, 1)%Z; runways := Some (Frame 7) |}.

Definition sample_sv : StateVectors :=
  {| sv_points :=
       [(sample_point, LStr "AFR1");
        ({| latitude := 50; longitude := 3;
            point_name := None; point_repr := "(50, 3)" |}, LStr "BAW2")] |}.

(** * Properties *)

(** ** The load hook *)

Lemma setattr_same c name v T : setattr c name v T c !! name = Some v.
Proof. unfold setattr. rewrite decide_True by done. apply lookup_insert_eq. Qed.

Lemma setattr_other_class c c' name name' v T :
  c' ≠ c → setattr c name v T c' !! name' = T c' !! name'.
Proof. intros Hc. unfold setattr. by rewrite decide_False. Qed.

Lemma setattr_other_name c name name' v T :
  name' ≠ name → setattr c name v T c !! name' = T c !! name'.
Proof.
  intros Hn. unfold setattr. rewrite decide_True by done.
  by rewrite lookup_insert_ne.
Qed.

Ltac setattr_lookup :=
  repeat first
    [ rewrite setattr_same
    | rewrite setattr_other_class by discriminate
    | rewrite setattr_other_name by discriminate ];
  try reflexivity.

(** C2: after [_onload], each of Airport, Airspace, Flight, FlightPlan,
    PointMixin and StateVectors has a [leaflet] attribute, bound to
    airport_leaflet, airspace_leaflet, flight_leaflet, flightplan_leaflet,
    point_leaflet and sv_leaflet respectively, whatever the classes held
    before. *)
Theorem onload_leaflet (T : ClassTable) :
  _onload T cls.Airport !! "leaflet" = Some fn_airport_leaflet
  ∧ _onload T cls.Airspace !! "leaflet" = Some fn_airspace_leaflet
  ∧ _onload T cls.Flight !! "leaflet" = Some fn_flight_leaflet
  ∧ _onload T cls.FlightPlan !! "leaflet" = Some fn_flightplan_leaflet
  ∧ _onload T cls.PointMixin !! "leaflet" = Some fn_point_leaflet
  ∧ _onload T cls.StateVectors !! "leaflet" = Some fn_sv_leaflet.
Proof. unfold _onload. repeat split; setattr_lookup. Qed.

(** C3: after [_onload], [Flight.map_leaflet] is flight_map_leaflet,
    [Traffic.map_leaflet] is traffic_map_leaflet, and [Map.add_layer] is
    map_add_layer. *)
Theorem onload_map_leaflet_add_layer (T : ClassTable) :
  _onload T cls.Flight !! "map_leaflet" = Some fn_flight_map_leaflet
  ∧ _onload T cls.Traffic !! "map_leaflet" = Some fn_traffic_map_leaflet
  ∧ _onload T cls.Map !! "add_layer" = Some fn_map_add_layer.
Proof. unfold _onload. repeat split; setattr_lookup. Qed.

(** Attribute lookup through the resolution order after the hook: every
    class of the six finds its own converter, an airport included although
    it is a point as well. *)
Lemma getattr_onload_leaflet (T : ClassTable) (c : cls.t) :
  c ∈ layer_classes →
  getattr (_onload T) c "leaflet" =
    Some match c with
         | cls.Airport => fn_airport_leaflet
         | cls.Airspace => fn_airspace_leaflet
         | cls.Flight => fn_flight_leaflet
         | cls.FlightPlan => fn_flightplan_leaflet
         | cls.PointMixin => fn_point_leaflet
         | _ => fn_sv_leaflet
         end.
Proof.
  intros Hc. unfold getattr, _onload.
  destruct c; simpl; setattr_lookup;
    exfalso; repeat (apply elem_of_cons in Hc as [Hc|Hc]; [discriminate|]);
    by apply elem_of_nil in Hc.
Qed.

Lemma getattr_onload_add_layer (T : ClassTable) :
  getattr (_onload T) cls.Map "add_layer" = Some fn_map_add_layer.
Proof. unfold getattr, _onload. simpl. by setattr_lookup. Qed.

(** ** The monad *)

Lemma bind_Ok {A B} (c : M A) (k : A → M B) w a w' :
  c w = Ok a w' → bind c k w = k a w'.
Proof. unfold bind. by intros ->. Qed.

Lemma bind_Raise {A B} (c : M A) (k : A → M B) w e :
  c w = Raise e → bind c k w = Raise e.
Proof. unfold bind. by intros ->. Qed.

Lemma bind_inv_Ok {A B} (c : M A) (k : A → M B) w b w'' :
  bind c k w = Ok b w'' → ∃ a w', c w = Ok a w' ∧ k a w' = Ok b w''.
Proof. unfold bind. destruct (c w) as [a w'|e]; [eauto | discriminate]. Qed.

Lemma bind_assoc {A B C} (c : M A) (k : A → M B) (k' : B → M C) w :
  bind (bind c k) k' w = bind c (fun a => bind (k a) k') w.
Proof. unfold bind. by destruct (c w). Qed.

Lemma bind_ext {A B} (c : M A) (k k' : A → M B) w :
  (∀ a w', k a w' = k' a w') → bind c k w = bind c k' w.
Proof. intros H. unfold bind. destruct (c w); [apply H|reflexivity]. Qed.

Lemma bind_cong {A B} (c c' : M A) (k : A → M B) w :
  c w = c' w → bind c k w = bind c' k w.
Proof. unfold bind. by intros ->. Qed.

Lemma for_each_app {A} (body : A → M unit) (xs ys : list A) w :
  for_each body (xs ++ ys) w = (for_each body xs ;; for_each body ys) w.
Proof.
  revert w. induction xs as [|x xs IH]; intros w; [reflexivity|].
  cbn [app for_each]. rewrite bind_assoc. apply bind_ext. intros _ w'. apply IH.
Qed.

Lemma for_each_ext {A} (f g : A → M unit) (xs : list A) w :
  (∀ x, x ∈ xs → ∀ w', f x w' = g x w') →
  for_each f xs w = for_each g xs w.
Proof.
  revert w. induction xs as [|x xs IH]; intros w H; [reflexivity|].
  cbn [for_each]. rewrite (bind_cong _ _ _ _ (H x (list_elem_of_here _ _) w)).
  apply bind_ext. intros _ w'. apply IH. intros y Hy. apply H. by right.
Qed.

Lemma keyword_free_Ok name (kwargs : Kwargs) w :
  kwargs !! name = None → keyword_free name kwargs w = Ok tt w.
Proof. unfold keyword_free. by intros ->. Qed.

Lemma keyword_free_Raise name (kwargs : Kwargs) v w :
  kwargs !! name = Some v → keyword_free name kwargs w = Raise TypeError.
Proof. unfold keyword_free. by intros ->. Qed.

(** A keyword that is not given lets the call through. *)
Lemma keyword_free_skip {A} name (kwargs : Kwargs) (c : M A) :
  kwargs !! name = None → (keyword_free name kwargs ;; c) = c.
Proof. unfold keyword_free. by intros ->. Qed.

(** ** Keyword arguments *)

Lemma dict_merge_lookup (a b : Kwargs) k :
  dict_merge a b !! k = match b !! k with Some v => Some v | None => a !! k end.
Proof.
  unfold dict_merge. rewrite lookup_union.
  destruct (b !! k), (a !! k); reflexivity.
Qed.

Lemma dict_merge_caller (a b : Kwargs) k v :
  b !! k = Some v → dict_merge a b !! k = Some v.
Proof. intros H. by rewrite dict_merge_lookup, H. Qed.

Lemma dict_merge_default (a b : Kwargs) k :
  b !! k = None → dict_merge a b !! k = a !! k.
Proof. intros H. by rewrite dict_merge_lookup, H. Qed.

(** ** Lists of coordinates *)

Lemma lookup_map {A B} (f : A → B) (l : list A) i :
  map f l !! i = f <$> l !! i.
Proof. revert i. induction l as [|x l IH]; intros [|i]; simpl; auto. Qed.

(** A widget allocated at the end of the heap is found there. *)
Lemma lookup_new (w : World) (o : Obj) : (w ++ [o]) !! length w = Some o.
Proof. by rewrite lookup_app_r, Nat.sub_diag. Qed.

Lemma lookup_new_first (w : World) (o : Obj) (rest : World) :
  (w ++ o :: rest) !! length w = Some o.
Proof. by rewrite lookup_app_r, Nat.sub_diag. Qed.

(** ** Flights and flight plans *)

Lemma flight_leaflet_no_shape flight kwargs w :
  flight_shape flight = None → flight_leaflet flight kwargs w = Ok VNone w.
Proof. unfold flight_leaflet. by intros ->. Qed.

Lemma flight_leaflet_shape flight coords kwargs w :
  flight_shape flight = Some coords →
  kwargs !! "locations" = None →
  flight_leaflet flight kwargs w =
    Ok (VRef (length w))
       (w ++ [{| widget :=
                   Polyline (Path (map (fun '(lon, lat, _) => (lat, lon)) coords))
                            (dict_merge line_defaults kwargs);
                 popup := VNone |}]).
Proof.
  intros Hs Hk. unfold flight_leaflet. rewrite Hs.
  erewrite bind_Ok; [reflexivity|].
  apply keyword_free_Ok. by rewrite dict_merge_default.
Qed.

Lemma flight_leaflet_not_None flight coords kwargs w w' :
  flight_shape flight = Some coords →
  flight_leaflet flight kwargs w ≠ Ok VNone w'.
Proof.
  intros Hs. unfold flight_leaflet. rewrite Hs. unfold bind, keyword_free.
  destruct (_ !! "locations"); discriminate.
Qed.

Lemma flightplan_leaflet_no_shape flightplan kwargs w :
  flightplan_shape flightplan = None →
  flightplan_leaflet flightplan kwargs w = Ok VNone w.
Proof. unfold flightplan_leaflet. by intros ->. Qed.

Lemma flightplan_leaflet_shape flightplan shape kwargs w :
  flightplan_shape flightplan = Some shape →
  kwargs !! "locations" = None →
  flightplan_leaflet flightplan kwargs w =
    Ok (VRef (length w))
       (w ++ [{| widget :=
                   Polyline
                     match shape with
                     | shapely.LineString coords => Path (map swap_lon_lat coords)
                     | shapely.MultiLineString geoms =>
                         Paths (map (map swap_lon_lat) geoms)
                     end
                     (dict_merge line_defaults kwargs);
                 popup := VNone |}]).
Proof.
  intros Hs Hk. unfold flightplan_leaflet. rewrite Hs.
  erewrite bind_Ok; [reflexivity|].
  apply keyword_free_Ok. by rewrite dict_merge_default.
Qed.

Lemma flightplan_leaflet_not_None flightplan shape kwargs w w' :
  flightplan_shape flightplan = Some shape →
  flightplan_leaflet flightplan kwargs w ≠ Ok VNone w'.
Proof.
  intros Hs. unfold flightplan_leaflet. rewrite Hs. unfold bind, keyword_free.
  destruct (_ !! "locations"); discriminate.
Qed.

(** C4: flight_leaflet returns [None] exactly when the shape of the flight is
    [None], and a [Polyline] otherwise; flightplan_leaflet does the same on a
    flight plan.  The [Polyline] is built by a call that passes [locations]
    itself, so the caller's keyword arguments must not name it again. *)
Theorem leaflet_None_iff_no_shape :
  (∀ flight kwargs w,
     ((∃ w', flight_leaflet flight kwargs w = Ok VNone w')
      ↔ flight_shape flight = None)
     ∧ (flight_shape flight ≠ None → kwargs !! "locations" = None →
        ∃ l w' locs opts,
          flight_leaflet flight kwargs w = Ok (VRef l) w'
          ∧ widget <$> w' !! l = Some (Polyline locs opts)))
  ∧ (∀ flightplan kwargs w,
     ((∃ w', flightplan_leaflet flightplan kwargs w = Ok VNone w')
      ↔ flightplan_shape flightplan = None)
     ∧ (flightplan_shape flightplan ≠ None → kwargs !! "locations" = None →
        ∃ l w' locs opts,
          flightplan_leaflet flightplan kwargs w = Ok (VRef l) w'
          ∧ widget <$> w' !! l = Some (Polyline locs opts))).
Proof.
  split.
  - intros flight kwargs w. split; [split|].
    + intros [w' H]. destruct (flight_shape flight) as [coords|] eqn:Hs; [|done].
      by apply flight_leaflet_not_None with (coords := coords) in H.
    + intros Hs. exists w. by apply flight_leaflet_no_shape.
    + intros Hs Hk. destruct (flight_shape flight) as [coords|] eqn:Hs'; [|done].
      eexists _, _, _, _. split.
      * by apply flight_leaflet_shape.
      * by rewrite lookup_new.
  - intros flightplan kwargs w. split; [split|].
    + intros [w' H].
      destruct (flightplan_shape flightplan) as [shape|] eqn:Hs; [|done].
      by apply flightplan_leaflet_not_None with (shape := shape) in H.
    + intros Hs. exists w. by apply flightplan_leaflet_no_shape.
    + intros Hs Hk.
      destruct (flightplan_shape flightplan) as [shape|] eqn:Hs'; [|done].
      eexists _, _, _, _. split.
      * by apply flightplan_leaflet_shape.
      * by rewrite lookup_new.
Qed.

Lemma leaflet_None_iff_no_shape_witness :
  (∃ w', flight_leaflet single_position_flight {[ "color" := LStr "red" ]} []
         = Ok VNone w')
  ∧ (∃ l w' locs opts,
       flight_leaflet sample_flight {[ "color" := LStr "red" ]} [] = Ok (VRef l) w'
       ∧ widget <$> w' !! l = Some (Polyline locs opts))
  ∧ (∃ w', flightplan_leaflet unresolved_plan {[ "color" := LStr "red" ]} []
           = Ok VNone w')
  ∧ (∃ l w' locs opts,
       flightplan_leaflet sample_plan {[ "color" := LStr "red" ]} [] = Ok (VRef l) w'
       ∧ widget <$> w' !! l = Some (Polyline locs opts)).
Proof.
  destruct leaflet_None_iff_no_shape as [HF HP].
  split; [|split; [|split]].
  - apply (HF single_position_flight). reflexivity.
  - apply (HF sample_flight); [discriminate | reflexivity].
  - apply (HP unresolved_plan). reflexivity.
  - apply (HP sample_plan); [discriminate | reflexivity].
Defined.

(** C6: when the shape of a flight is a line string, the locations of the
    [Polyline] that flight_leaflet returns are the coordinates of the shape,
    in order and in number, each (longitude, latitude, altitude) turned into
    (latitude, longitude); flightplan_leaflet does so for a flight plan whose
    shape is a [LineString].  The caller's keyword arguments must not name
    [locations], which the call passes itself. *)
Theorem leaflet_locations_swap :
  (∀ flight coords kwargs w,
     flight_shape flight = Some coords →
     kwargs !! "locations" = None →
     ∃ l w' locs opts,
       flight_leaflet flight kwargs w = Ok (VRef l) w'
       ∧ widget <$> w' !! l = Some (Polyline (Path locs) opts)
       ∧ length locs = length coords
       ∧ ∀ i lon lat alt,
           coords !! i = Some (lon, lat, alt) → locs !! i = Some (lat, lon))
  ∧ (∀ flightplan coords kwargs w,
     flightplan_shape flightplan = Some (shapely.LineString coords) →
     kwargs !! "locations" = None →
     ∃ l w' locs opts,
       flightplan_leaflet flightplan kwargs w = Ok (VRef l) w'
       ∧ widget <$> w' !! l = Some (Polyline (Path locs) opts)
       ∧ length locs = length coords
       ∧ (∀ i lon lat alt,
            coords !! i = Some (shapely.XYZ lon lat alt) →
            locs !! i = Some (lat, lon))
       ∧ (∀ i lon lat,
            coords !! i = Some (shapely.XY lon lat) →
            locs !! i = Some (lat, lon))).
Proof.
  split.
  - intros flight coords kwargs w Hs Hk. eexists _, _, _, _.
    split; [by apply flight_leaflet_shape|].
    split; [by rewrite lookup_new|].
    split; [apply length_map|].
    intros i lon lat alt Hi. by rewrite lookup_map, Hi.
  - intros flightplan coords kwargs w Hs Hk. eexists _, _, _, _.
    split; [by apply flightplan_leaflet_shape|].
    split; [by rewrite lookup_new|].
    split; [apply length_map|].
    split; intros; rewrite lookup_map; by simplify_option_eq.
Qed.

Lemma leaflet_locations_swap_witness :
  (∃ l w' locs opts,
     flight_leaflet sample_flight {[ "color" := LStr "red" ]} [] = Ok (VRef l) w'
     ∧ widget <$> w' !! l = Some (Polyline (Path locs) opts)
     ∧ length locs = 2%nat
     ∧ ∀ i lon lat alt,
         [(2, 48, 1000); (3, 49, 2000)]%Z !! i = Some (lon, lat, alt) →
         locs !! i = Some (lat, lon))
  ∧ (∃ l w' locs opts,
       flightplan_leaflet sample_plan {[ "color" := LStr "red" ]} [] = Ok (VRef l) w'
       ∧ widget <$> w' !! l = Some (Polyline (Path locs) opts)
       ∧ length locs = 2%nat
       ∧ (∀ i lon lat alt,
            [shapely.XY 2 48; shapely.XYZ 3 49 0] !! i
              = Some (shapely.XYZ lon lat alt) →
            locs !! i = Some (lat, lon))
       ∧ (∀ i lon lat,
            [shapely.XY 2 48; shapely.XYZ 3 49 0] !! i
              = Some (shapely.XY lon lat) →
            locs !! i = Some (lat, lon))).
Proof.
  destruct leaflet_locations_swap as [HF HP].
  split.
  - apply (HF sample_flight [(2, 48, 1000); (3, 49, 2000)]%Z); reflexivity.
  - apply (HP sample_plan [shapely.XY 2 48; shapely.XYZ 3 49 0]); reflexivity.
Defined.

(** ** Airspaces *)

Lemma geom_type_Polygon (s : shapely.Surface) :
  shapely.geom_type s = "Polygon" ↔ ∃ ext, s = shapely.Polygon ext.
Proof.
  destruct s; simpl; split; try discriminate; eauto. by intros [? ?].
Qed.




(** ** Points *)

Lemma alter_new {A} (f : A → A) (w : list A) (o : A) (rest : list A) :
  alter f (length w) (w ++ o :: rest) = w ++ f o :: rest.
Proof. by rewrite alter_app_r_alt, Nat.sub_diag. Qed.

Lemma point_leaflet_Ok point kwargs w :
  kwargs !! "location" = None →
  point_leaflet point kwargs w =
    Ok (VRef (length w))
       (w ++ [{| widget :=
                   Marker (latitude point, longitude point)
                     (dict_merge
                        match point_name point with
                        | Some name => {[ "title" := LStr name ]}
                        | None => ∅
                        end kwargs);
                 popup := VRef (S (length w)) |};
              {| widget := HTML (point_repr point); popup := VNone |}]).
Proof.
  intros Hk. unfold point_leaflet.
  erewrite bind_Ok; cycle 1.
  { apply keyword_free_Ok. rewrite dict_merge_default by done.
    destruct (point_name point); [by rewrite lookup_singleton_ne|apply lookup_empty]. }
  unfold bind, new, set_value, set_popup, ret. f_equal.
  rewrite alter_new. simpl. rewrite <- app_assoc. simpl.
  rewrite alter_new. simpl.
  by rewrite length_app, Nat.add_1_r.
Qed.

(** C10: point_leaflet returns a [Marker] placed at (latitude, longitude)
    whose popup is an [HTML] widget with value [repr(point)].  When the point
    has a name and no [title] is passed, the title of the marker is
    [str(point.name)]; every keyword argument of the caller is kept as
    given, a [title] included.  The caller's keyword arguments must not name
    [location], which the call passes itself. *)
Theorem point_leaflet_marker (point : PointMixin) (kwargs : Kwargs) (w : World) :
  kwargs !! "location" = None →
  ∃ marker label w' opts,
    point_leaflet point kwargs w = Ok (VRef marker) w'
    ∧ w' !! marker =
        Some {| widget := Marker (latitude point, longitude point) opts;
                popup := VRef label |}
    ∧ widget <$> w' !! label = Some (HTML (point_repr point))
    ∧ (∀ name, point_name point = Some name → kwargs !! "title" = None →
         opts !! "title" = Some (LStr name))
    ∧ (∀ k v, kwargs !! k = Some v → opts !! k = Some v).
Proof.
  intros Hk. eexists _, _, _, _.
  split; [by apply point_leaflet_Ok|].
  split; [apply lookup_new_first|].
  split.
  { rewrite (lookup_app_r w) by lia.
    by replace (S (length w) - length w) with 1 by lia. }
  split.
  - intros name Hn Ht. rewrite dict_merge_default by done. rewrite Hn.
    apply lookup_singleton_eq.
  - intros k v. apply dict_merge_caller.
Qed.

Lemma point_leaflet_marker_witness :
  ∃ marker label w' opts,
    point_leaflet sample_point {[ "color" := LStr "red" ]} one_map
      = Ok (VRef marker) w'
    ∧ w' !! marker =
        Some {| widget := Marker (48, 2)%Z opts; popup := VRef label |}
    ∧ widget <$> w' !! label = Some (HTML "NARAK (48, 2)")
    ∧ (∀ name, Some "NARAK" = Some name →
         ({[ "color" := LStr "red" ]} : Kwargs) !! "title" = None →
         opts !! "title" = Some (LStr name))
    ∧ (∀ k v, ({[ "color" := LStr "red" ]} : Kwargs) !! k = Some v →
         opts !! k = Some v).
Proof.
  apply (point_leaflet_marker sample_point {[ "color" := LStr "red" ]} one_map).
  reflexivity.
Defined.

(** ** The patched [add_layer] *)

Section AddLayerFacts.

Variable leaflet : Value → Kwargs → M Value.
Variable _old_add_layer : Value → Value → M Value.

Let add := map_add_layer leaflet _old_add_layer.

Lemma existsb_isinstance elt :
  existsb (isinstance elt) layer_classes = true
  ↔ ∃ c, c ∈ layer_classes ∧ isinstance elt c = true.
Proof.
  rewrite existsb_exists. split; intros (c & Hc & Hi); exists c; split; auto;
    by apply list_elem_of_In.
Qed.

Lemma map_add_layer_layer _map elt kwargs :
  existsb (isinstance elt) layer_classes = true →
  add _map elt kwargs =
    (layer <- leaflet elt kwargs ;; _old_add_layer _map layer ;; ret layer).
Proof. intros H. unfold add. destruct elt; simpl in *; by rewrite ?H. Qed.

Lemma map_add_layer_other _map elt kwargs :
  existsb (isinstance elt) layer_classes = false →
  isinstance elt cls.FlightIterator = false →
  add _map elt kwargs = _old_add_layer _map elt.
Proof.
  intros H Hi. unfold add.
  destruct elt; simpl in *; rewrite ?H; try reflexivity; discriminate.
Qed.

Lemma map_add_layer_segments _map segments kwargs w :
  add _map (VFlightIterator segments) kwargs w =
    (for_each (fun segment => add _map segment kwargs ;; ret tt) segments ;;
     ret VNone) w.
Proof.
  unfold add. simpl. revert w.
  induction segments as [|segment rest IH]; intros w; [reflexivity|].
  simpl. unfold bind in *.
  destruct (map_add_layer _ _ _ segment kwargs w) as [v w'|e]; [|reflexivity].
  apply IH.
Qed.

Lemma for_each_bind_ret {A} (body : A → M unit) (xs : list A) w v w' :
  (for_each body xs ;; ret VNone) w = Ok v w' → v = VNone.
Proof.
  intros H. apply bind_inv_Ok in H as (? & ? & _ & H). by inversion H.
Qed.

End AddLayerFacts.

(** C1: for every map, element and keyword arguments, map_add_layer on an
    instance of Airport, Airspace, Flight, FlightPlan, PointMixin or
    StateVectors calls the [leaflet] method of the element with the keyword
    arguments, hands the layer to the original [add_layer] and returns the
    layer; on an element that is none of these and no FlightIterator it is
    the original [add_layer] on the element itself. *)
Theorem map_add_layer_dispatch
  (leaflet : Value → Kwargs → M Value)
  (_old_add_layer : Value → Value → M Value)
  (_map elt : Value) (kwargs : Kwargs) (w : World) :
  ((∃ c, c ∈ layer_classes ∧ isinstance elt c = true) →
   map_add_layer leaflet _old_add_layer _map elt kwargs w =
     (layer <- leaflet elt kwargs ;;
      _old_add_layer _map layer ;;
      ret layer) w)
  ∧ ((∀ c, c ∈ layer_classes → isinstance elt c = false) →
     isinstance elt cls.FlightIterator = false →
     map_add_layer leaflet _old_add_layer _map elt kwargs w =
       _old_add_layer _map elt w).
Proof.
  split.
  - intros H. apply existsb_isinstance in H.
    by rewrite map_add_layer_layer.
  - intros H Hi. rewrite map_add_layer_other; auto.
    destruct (existsb _ _) eqn:E; [|done].
    apply existsb_isinstance in E as (c & Hc & Hc'). by rewrite H in Hc'.
Qed.

Lemma map_add_layer_dispatch_witness :
  map_add_layer (call_leaflet (_onload fresh_classes) no_other_call)
    ipyleaflet_add_layer (VRef 0) (VFlight sample_flight)
    {[ "color" := LStr "red" ]} one_map =
    (layer <- call_leaflet (_onload fresh_classes) no_other_call
                (VFlight sample_flight) {[ "color" := LStr "red" ]} ;;
     ipyleaflet_add_layer (VRef 0) layer ;;
     ret layer) one_map
  ∧ map_add_layer (call_leaflet (_onload fresh_classes) no_other_call)
      ipyleaflet_add_layer (VRef 0) (VRef 1) ∅
      (one_map ++ [{| widget := HTML "tile"; popup := VNone |}]) =
      ipyleaflet_add_layer (VRef 0) (VRef 1)
        (one_map ++ [{| widget := HTML "tile"; popup := VNone |}]).
Proof.
  split.
  - apply map_add_layer_dispatch.
    exists cls.Flight. split; [|reflexivity].
    unfold layer_classes. repeat constructor.
  - apply map_add_layer_dispatch; [|reflexivity].
    intros c _. reflexivity.
Defined.

(** C9: for every map and every FlightIterator, map_add_layer adds each
    segment that the iterator yields to the map, in turn and with the same
    keyword arguments: for segments that are instances of the six classes,
    as an iterator of flights yields them, it calls the [leaflet] method of
    the segment on the keyword arguments and hands the layer to the
    original [add_layer] of the map, one segment after the other; in
    general it runs itself on each segment.  Once the segments are added it
    returns [None], and it returns nothing else, no layer in particular. *)
Theorem map_add_layer_iterator
  (leaflet : Value → Kwargs → M Value)
  (_old_add_layer : Value → Value → M Value)
  (_map : Value) (segments : list Value) (kwargs : Kwargs) (w : World) :
  (Forall (fun segment => ∃ c, c ∈ layer_classes ∧ isinstance segment c = true)
          segments →
   map_add_layer leaflet _old_add_layer _map (VFlightIterator segments) kwargs w =
     (for_each
        (fun segment =>
           layer <- leaflet segment kwargs ;;
           _old_add_layer _map layer ;;
           ret tt)
        segments ;;
      ret VNone) w)
  ∧ map_add_layer leaflet _old_add_layer _map (VFlightIterator segments) kwargs w =
      (for_each
         (fun segment =>
            map_add_layer leaflet _old_add_layer _map segment kwargs ;; ret tt)
         segments ;;
       ret VNone) w
  ∧ (∀ w',
       for_each
         (fun segment =>
            map_add_layer leaflet _old_add_layer _map segment kwargs ;; ret tt)
         segments w = Ok tt w' →
       map_add_layer leaflet _old_add_layer _map (VFlightIterator segments)
         kwargs w = Ok VNone w')
  ∧ (∀ v w',
       map_add_layer leaflet _old_add_layer _map (VFlightIterator segments)
         kwargs w = Ok v w' →
       v = VNone).
Proof.
  split; [|split; [apply map_add_layer_segments|split]].
  - intros Hs. rewrite map_add_layer_segments. apply bind_cong.
    apply for_each_ext. intros segment Hin w1.
    rewrite Forall_forall in Hs. apply Hs, existsb_isinstance in Hin.
    rewrite map_add_layer_layer by done.
    rewrite !bind_assoc. apply bind_ext. intros layer w2.
    rewrite bind_assoc. apply bind_ext. intros _ w3. reflexivity.
  - intros w' H. rewrite map_add_layer_segments. by rewrite (bind_Ok _ _ _ _ _ H).
  - intros v w'. rewrite map_add_layer_segments. apply for_each_bind_ret.
Qed.

Lemma map_add_layer_iterator_witness :
  map_add_layer (call_leaflet (_onload fresh_classes) no_other_call)
    ipyleaflet_add_layer (VRef 0)
    (VFlightIterator [VFlight sample_flight; VFlight single_position_flight])
    {[ "color" := LStr "red" ]} one_map =
    (for_each
       (fun segment =>
          layer <- call_leaflet (_onload fresh_classes) no_other_call
                     segment {[ "color" := LStr "red" ]} ;;
          ipyleaflet_add_layer (VRef 0) layer ;;
          ret tt)
       [VFlight sample_flight; VFlight single_position_flight] ;;
     ret VNone) one_map.
Proof.
  apply (proj1 (map_add_layer_iterator _ _ _ _ _ _)).
  repeat (apply List.Forall_cons;
          [exists cls.Flight;
           split; [unfold layer_classes; repeat constructor|reflexivity]|]).
  apply List.Forall_nil.
Defined.

(** ** Calls once the plugin is loaded *)

Lemma bind_raises_l {A B} (c : M A) (k : A → M B) w :
  (∃ e, c w = Raise e) → ∃ e, bind c k w = Raise e.
Proof. intros [e H]. exists e. by apply bind_Raise. Qed.

Lemma bind_raises_r {A B} (c : M A) (k : A → M B) w :
  (∀ a w', ∃ e, k a w' = Raise e) → ∃ e, bind c k w = Raise e.
Proof.
  intros H. unfold bind. destruct (c w) as [a w'|e]; [apply H | by exists e].
Qed.

Lemma for_each_raises {A} (body : A → M unit) (xs : list A) (x : A) :
  x ∈ xs →
  (∀ w, ∃ e, body x w = Raise e) →
  ∀ w, ∃ e, for_each body xs w = Raise e.
Proof.
  intros Hx Hbody. induction xs as [|y xs IH]; intros w; simpl.
  - by apply elem_of_nil in Hx.
  - apply elem_of_cons in Hx as [<-|Hx].
    + by apply bind_raises_l.
    + apply bind_raises_r. intros _ w'. by apply IH.
Qed.

Section LoadedFacts.

Variable T : ClassTable.
Variable _old_add_layer : Value → Value → M Value.
Variable other_call : Function → list Value → Kwargs → M Value.
Variable airports : string → option Airport.

Let add_layer := call_add_layer (_onload T) _old_add_layer other_call.

(** After the hook, [elt.leaflet] on a flight is flight_leaflet, with the
    flight as its first argument. *)
Lemma call_leaflet_flight flight kwargs :
  call_leaflet (_onload T) other_call (VFlight flight) kwargs =
    (keyword_free "flight" kwargs ;; flight_leaflet flight kwargs).
Proof.
  unfold call_leaflet. simpl.
  rewrite getattr_onload_leaflet by (unfold layer_classes; set_solver).
  reflexivity.
Qed.

(** After the hook, each of the six kinds of objects finds its converter
    behind [elt.leaflet]. *)
Lemma call_leaflet_onload kwargs :
  (∀ a, call_leaflet (_onload T) other_call (VAirport a) kwargs
        = (keyword_free "airport" kwargs ;; airport_leaflet a kwargs))
  ∧ (∀ a, call_leaflet (_onload T) other_call (VAirspace a) kwargs
          = (keyword_free "airspace" kwargs ;; airspace_leaflet a kwargs))
  ∧ (∀ f, call_leaflet (_onload T) other_call (VFlight f) kwargs
          = (keyword_free "flight" kwargs ;; flight_leaflet f kwargs))
  ∧ (∀ p, call_leaflet (_onload T) other_call (VFlightPlan p) kwargs
          = (keyword_free "flightplan" kwargs ;; flightplan_leaflet p kwargs))
  ∧ (∀ p, call_leaflet (_onload T) other_call (VPoint p) kwargs
          = (keyword_free "point" kwargs ;; point_leaflet p kwargs))
  ∧ (∀ sv, call_leaflet (_onload T) other_call (VStateVectors sv) kwargs
           = (keyword_free "sv" kwargs ;; sv_leaflet sv kwargs)).
Proof.
  repeat split; intros; unfold call_leaflet; simpl;
    by rewrite getattr_onload_leaflet by (unfold layer_classes; set_solver).
Qed.

(** After the hook, [m.add_layer(flight)] converts the flight and hands
    the layer to the original method. *)
Lemma add_layer_flight m flight kwargs :
  kwargs !! "_map" = None →
  kwargs !! "elt" = None →
  kwargs !! "flight" = None →
  add_layer m (VFlight flight) kwargs =
    (layer <- flight_leaflet flight kwargs ;;
     _old_add_layer m layer ;;
     ret layer).
Proof.
  intros Hm He Hf.
  unfold add_layer, call_add_layer. rewrite getattr_onload_add_layer.
  rewrite !keyword_free_skip by done.
  rewrite map_add_layer_layer by reflexivity.
  by rewrite call_leaflet_flight, keyword_free_skip.
Qed.

(** A flight without a shape gives [None] as its layer; the popup cannot
    be attached to it. *)
Lemma add_layer_attach_no_shape m flight w :
  flight_shape flight = None →
  ∃ e, (elt <- add_layer m (VFlight flight) ∅ ;; attach_info elt flight) w
       = Raise e.
Proof.
  intros Hs. rewrite add_layer_flight by apply lookup_empty.
  unfold bind at 1 2.
  rewrite flight_leaflet_no_shape by done.
  unfold bind at 1. destruct (_old_add_layer m VNone w) as [r w'|e]; simpl.
  - by exists AttributeError.
  - by exists e.
Qed.

Lemma flight_map_leaflet_no_shape flight position zoom highlight airport kwargs w :
  query_latitude flight = Some {| at_last := Some position |} →
  flight_shape flight = None →
  ∃ e, flight_map_leaflet (_onload T) _old_add_layer other_call airports
         flight zoom highlight airport kwargs w = Raise e.
Proof.
  intros Hq Hs. unfold flight_map_leaflet. rewrite Hq. simpl.
  apply bind_raises_r. intros m w'.
  rewrite <- bind_assoc. apply bind_raises_l.
  by apply add_layer_attach_no_shape.
Qed.

Lemma traffic_map_leaflet_no_shape traffic flight selection zoom highlight
  airport kwargs w :
  flight ∈ flights traffic →
  query_latitude flight = Some selection →
  flight_shape flight = None →
  ∃ e, traffic_map_leaflet (_onload T) _old_add_layer other_call airports
         traffic zoom highlight airport kwargs w = Raise e.
Proof.
  intros Hf Hq Hs. unfold traffic_map_leaflet.
  apply bind_raises_r. intros m w'. apply bind_raises_l.
  eapply for_each_raises; [exact Hf|]. intros w''. simpl.
  apply bind_raises_l. rewrite Hq.
  by apply add_layer_attach_no_shape.
Qed.

End LoadedFacts.

(** C5, at a flight of a single position: it has a last valid position, so
    the early return is not taken, and its shape is [None], so the layer
    that [add_layer] returns is [None]; setting the popup on it raises.  No
    [Map] is returned, whatever the original [add_layer], the airport, the
    highlights and the keyword arguments are. *)
Theorem flight_map_leaflet_single_position
  (T : ClassTable) (_old_add_layer : Value → Value → M Value)
  (other_call : Function → list Value → Kwargs → M Value)
  (airports : string → option Airport)
  (zoom : Z) (highlight : option (list (string * Highlight)))
  (airport : AirportArg) (kwargs : Kwargs) (w : World) :
  ∃ e, flight_map_leaflet (_onload T) _old_add_layer other_call airports
         single_position_flight zoom highlight airport kwargs w = Raise e.
Proof. by eapply flight_map_leaflet_no_shape. Qed.

(** C8, at a traffic that holds a flight of a single position: the flight
    has a valid latitude, so it is not skipped, and its layer is [None];
    setting the popup on it raises.  No [Map] is returned, whatever the
    other flights, the original [add_layer], the airport, the highlights and
    the keyword arguments are. *)
Theorem traffic_map_leaflet_single_position
  (T : ClassTable) (_old_add_layer : Value → Value → M Value)
  (other_call : Function → list Value → Kwargs → M Value)
  (airports : string → option Airport)
  (before after : list Flight) (mean : float * float)
  (zoom : Z) (highlight : option (list (string * Highlight)))
  (airport : AirportArg) (kwargs : Kwargs) (w : World) :
  ∃ e, traffic_map_leaflet (_onload T) _old_add_layer other_call airports
         {| flights := before ++ single_position_flight :: after;
            traffic_mean := mean |}
         zoom highlight airport kwargs w = Raise e.
Proof.
  eapply traffic_map_leaflet_no_shape with (flight := single_position_flight);
    [|reflexivity..].
  simpl. set_solver.
Qed.

(** ** What holds of the two map functions *)

Section MapFacts.

Variable T : ClassTable.
Variable _old_add_layer : Value → Value → M Value.
Variable other_call : Function → list Value → Kwargs → M Value.
Variable airports : string → option Airport.

(** The map is a fresh widget, never [None]. *)
Lemma new_map_ref zoom _airport kwargs w m w' :
  new_map T _old_add_layer other_call zoom _airport kwargs w = Ok m w' →
  m = VRef (length w).
Proof.
  unfold new_map. intros H.
  apply bind_inv_Ok in H as ([] & w1 & Hk & H).
  unfold keyword_free in Hk. destruct (kwargs !! "zoom"); [discriminate|].
  inversion Hk; subst w1. clear Hk.
  apply bind_inv_Ok in H as (m' & w2 & Hn & H).
  inversion Hn; subst m' w2. clear Hn.
  destruct _airport as [a|]; [|by inversion H].
  apply bind_inv_Ok in H as (? & ? & _ & H). by inversion H.
Qed.

(** flight_map_leaflet returns [None] exactly when the query finds rows
    and [.at()] on them gives [None]. *)
Lemma flight_map_leaflet_None_iff flight zoom highlight airport kwargs w :
  (∃ w', flight_map_leaflet T _old_add_layer other_call airports
           flight zoom highlight airport kwargs w = Ok VNone w')
  ↔ ∃ selection,
      query_latitude flight = Some selection ∧ at_last selection = None.
Proof.
  unfold flight_map_leaflet. split.
  - intros [w' H]. destruct (query_latitude flight) as [sel|]; [|discriminate].
    exists sel. split; [done|].
    destruct (at_last sel) as [pos|]; [|done]. exfalso.
    apply bind_inv_Ok in H as (m & w1 & Hm & H).
    apply new_map_ref in Hm as ->.
    apply bind_inv_Ok in H as (? & ? & _ & H).
    apply bind_inv_Ok in H as (? & ? & _ & H).
    apply bind_inv_Ok in H as (? & ? & _ & H).
    by inversion H.
  - intros (sel & -> & ->). by exists w.
Qed.

(** traffic_map_leaflet never returns [None]. *)
Lemma traffic_map_leaflet_not_None traffic zoom highlight airport kwargs w w' :
  traffic_map_leaflet T _old_add_layer other_call airports
    traffic zoom highlight airport kwargs w ≠ Ok VNone w'.
Proof.
  unfold traffic_map_leaflet. intros H.
  apply bind_inv_Ok in H as (m & w1 & Hm & H).
  apply new_map_ref in Hm as ->.
  apply bind_inv_Ok in H as (? & ? & _ & H).
  by inversion H.
Qed.

(** Flights without a valid latitude are passed over: with no highlight
    they leave the heap as it is. *)
Lemma for_each_blind (m : Value) (fs : list Flight) w :
  Forall (fun f => query_latitude f = None) fs →
  for_each
    (fun flight =>
       (match query_latitude flight with
        | Some _ =>
            elt <- call_add_layer T _old_add_layer other_call m (VFlight flight) ∅ ;;
            attach_info elt flight
        | None => ret tt
        end) ;;
       for_each (highlight_item T _old_add_layer other_call m flight) [])
    fs w = Ok tt w.
Proof.
  induction 1 as [|f fs Hf _ IH]; [reflexivity|].
  simpl. rewrite Hf. unfold bind at 1 2. simpl. apply IH.
Qed.

Lemma with_center_lookup _airport mean (kwargs : Kwargs) k :
  k ≠ "center" → with_center _airport mean kwargs !! k = kwargs !! k.
Proof.
  intros Hk. unfold with_center.
  destruct (kwargs !! "center"); [done|].
  destruct _airport; by rewrite lookup_insert_ne.
Qed.

(** A traffic in which no flight has a valid latitude still gives a map,
    with nothing on it. *)
Lemma traffic_map_leaflet_blind traffic zoom kwargs w :
  Forall (fun f => query_latitude f = None) (flights traffic) →
  kwargs !! "zoom" = None →
  traffic_map_leaflet T _old_add_layer other_call airports
    traffic zoom None NoAirport kwargs w =
    Ok (VRef (length w))
       (w ++ [{| widget :=
                   Map (<["zoom" := LInt zoom]>
                          (with_center None (traffic_mean traffic) kwargs)) [];
                 popup := VNone |}]).
Proof.
  intros Hf Hz.
  rewrite <- (with_center_lookup None (traffic_mean traffic)) in Hz by done.
  unfold traffic_map_leaflet, new_map. simpl.
  rewrite bind_assoc. rewrite (bind_Ok _ _ _ _ _ (keyword_free_Ok _ _ _ Hz)).
  rewrite bind_assoc. unfold bind at 1, new at 1. unfold bind at 1, ret at 1.
  unfold bind at 1. by rewrite for_each_blind.
Qed.

End MapFacts.

Lemma lookup_past {A} (w l : list A) i : (w ++ l) !! (length w + i)%nat = l !! i.
Proof. rewrite lookup_app_r by lia. f_equal. lia. Qed.

(** With ipyleaflet's own [add_layer], a flight that has a shape and a last
    position gets its map, with its line on it and the popup on the line:
    there the rest of C5 holds. *)
Lemma flight_map_leaflet_Map
  (T : ClassTable) (other_call : Function → list Value → Kwargs → M Value)
  (airports : string → option Airport)
  (flight : Flight) coords position (zoom : Z) (kwargs : Kwargs) (w : World) :
  flight_shape flight = Some coords →
  query_latitude flight = Some {| at_last := Some position |} →
  kwargs !! "zoom" = None →
  ∃ w' opts layer,
    flight_map_leaflet (_onload T) ipyleaflet_add_layer other_call airports
      flight zoom None NoAirport kwargs w = Ok (VRef (length w)) w'
    ∧ widget <$> w' !! length w = Some (Map opts [VRef layer])
    ∧ ∃ locs style label,
        w' !! layer = Some {| widget := Polyline locs style; popup := VRef label |}
        ∧ widget <$> w' !! label = Some (HTML (_info_html flight)).
Proof.
  intros Hs Hq Hz.
  rewrite <- (with_center_lookup None (flight_mean flight)) in Hz by done.
  unfold flight_map_leaflet. rewrite Hq. simpl.
  unfold new_map. rewrite bind_assoc.
  rewrite (bind_Ok _ _ _ _ _ (keyword_free_Ok _ _ _ Hz)).
  rewrite bind_assoc. unfold bind at 1, new at 1. unfold bind at 1, ret at 1.
  rewrite add_layer_flight by apply lookup_empty. rewrite !bind_assoc.
  erewrite bind_Ok by (by apply flight_leaflet_shape).
  set (line := {| widget := Polyline _ _; popup := VNone |}).
  unfold bind, ipyleaflet_add_layer, attach_info, bind, new, set_popup,
    set_value, ret.
  simpl.
  rewrite <- (app_assoc w [_] [line]). simpl.
  rewrite alter_new. simpl.
  rewrite !length_app. simpl.
  rewrite <- (app_assoc w _ [_]). simpl.
  rewrite !alter_app_r. simpl.
  eexists _, _, (length w + 1)%nat. split; [reflexivity|].
  split; [by rewrite lookup_new_first|].
  eexists _, _, (length w + 2)%nat.
  by rewrite !lookup_past.
Qed.

(** ** The model at work *)

(** A keyword the call passes itself is refused. *)
Example locations_given_twice :
  flight_leaflet sample_flight {[ "locations" := LNone ]} [] = Raise TypeError.
Proof. reflexivity. Qed.

(** A flight with a line to draw, on ipyleaflet's own [add_layer]: the map,
    the line on it, and the popup of the line. *)
Example sample_flight_on_ipyleaflet :
  ∃ w',
    flight_map_leaflet (_onload fresh_classes) ipyleaflet_add_layer
      no_other_call (fun _ => None)
      sample_flight default_zoom None NoAirport ∅ [] = Ok (VRef 0) w'
    ∧ w' !! 0%nat =
        Some {| widget :=
                  Map {[ "center" := LPair (LFloat 48) (LFloat 2);
                         "zoom" := LInt 7 ]} [VRef 1];
                popup := VNone |}
    ∧ w' !! 1%nat =
        Some {| widget := Polyline (Path [(48, 2); (49, 3)]%Z) line_defaults;
                popup := VRef 2 |}
    ∧ w' !! 2%nat = Some {| widget := HTML "<b>AFR1</b>"; popup := VNone |}.
Proof. eexists. split; [vm_compute; reflexivity|]. by vm_compute. Qed.

(** The flight of a single position, on ipyleaflet's own [add_layer]. *)
Example single_position_on_ipyleaflet :
  flight_map_leaflet (_onload fresh_classes) ipyleaflet_add_layer
    no_other_call (fun _ => None)
    single_position_flight default_zoom None NoAirport ∅ []
  = Raise AttributeError.
Proof. reflexivity. Qed.

(** The same flight when the original [add_layer] lets [None] through. *)
Example single_position_on_lenient_add_layer :
  flight_map_leaflet (_onload fresh_classes) (fun _ _ => ret VNone)
    no_other_call (fun _ => None)
    single_position_flight default_zoom None NoAirport ∅ []
  = Raise AttributeError.
Proof. reflexivity. Qed.

(** A flight without any valid position: [query] gives [None], and [.at()]
    on it raises. *)
Example blind_flight_on_ipyleaflet :
  flight_map_leaflet (_onload fresh_classes) ipyleaflet_add_layer
    no_other_call (fun _ => None)
    blind_flight default_zoom None NoAirport ∅ []
  = Raise AttributeError.
Proof. reflexivity. Qed.

Example traffic_with_single_position_on_ipyleaflet :
  traffic_map_leaflet (_onload fresh_classes) ipyleaflet_add_layer
    no_other_call (fun _ => None)
    {| flights := [blind_flight; sample_flight; single_position_flight];
       traffic_mean := (48, 2)%Z |}
    default_zoom None NoAirport ∅ []
  = Raise AttributeError.
Proof. reflexivity. Qed.

(** * Further properties *)

(** ** Options of the layers *)

(** X1: the options of the [Polyline] that flight_leaflet and
    flightplan_leaflet build are the keyword arguments of the caller, plus
    [fill_opacity=0] and [weight=3] where the caller gives none, and nothing
    else. *)
Theorem polyline_options :
  (∀ flight coords kwargs w,
     flight_shape flight = Some coords →
     kwargs !! "locations" = None →
     ∃ locs opts,
       flight_leaflet flight kwargs w =
         Ok (VRef (length w))
            (w ++ [{| widget := Polyline locs opts; popup := VNone |}])
       ∧ (∀ k v, kwargs !! k = Some v → opts !! k = Some v)
       ∧ (kwargs !! "fill_opacity" = None → opts !! "fill_opacity" = Some (LInt 0))
       ∧ (kwargs !! "weight" = None → opts !! "weight" = Some (LInt 3))
       ∧ (∀ k, k ≠ "fill_opacity" → k ≠ "weight" →
            kwargs !! k = None → opts !! k = None))
  ∧ (∀ flightplan shape kwargs w,
     flightplan_shape flightplan = Some shape →
     kwargs !! "locations" = None →
     ∃ locs opts,
       flightplan_leaflet flightplan kwargs w =
         Ok (VRef (length w))
            (w ++ [{| widget := Polyline locs opts; popup := VNone |}])
       ∧ (∀ k v, kwargs !! k = Some v → opts !! k = Some v)
       ∧ (kwargs !! "fill_opacity" = None → opts !! "fill_opacity" = Some (LInt 0))
       ∧ (kwargs !! "weight" = None → opts !! "weight" = Some (LInt 3))
       ∧ (∀ k, k ≠ "fill_opacity" → k ≠ "weight" →
            kwargs !! k = None → opts !! k = None)).
Proof.
  assert (∀ kwargs : Kwargs,
            (∀ k v, kwargs !! k = Some v →
                    dict_merge line_defaults kwargs !! k = Some v)
            ∧ (kwargs !! "fill_opacity" = None →
               dict_merge line_defaults kwargs !! "fill_opacity" = Some (LInt 0))
            ∧ (kwargs !! "weight" = None →
               dict_merge line_defaults kwargs !! "weight" = Some (LInt 3))
            ∧ (∀ k, k ≠ "fill_opacity" → k ≠ "weight" → kwargs !! k = None →
                 dict_merge line_defaults kwargs !! k = None)) as Hopts.
  { intros kwargs. split; [apply dict_merge_caller|].
    split; [|split].
    - intros H. by rewrite dict_merge_default.
    - intros H. by rewrite dict_merge_default.
    - intros k Hf Hw H. rewrite dict_merge_default by done.
      unfold line_defaults.
      by rewrite lookup_insert_ne, lookup_singleton_ne. }
  split.
  - intros flight coords kwargs w Hs Hk. eexists _, _.
    split; [by apply flight_leaflet_shape|]. apply Hopts.
  - intros flightplan shape kwargs w Hs Hk. eexists _, _.
    split; [by apply flightplan_leaflet_shape|]. apply Hopts.
Qed.

Lemma polyline_options_witness :
  (∃ locs opts,
     flight_leaflet sample_flight {[ "weight" := LInt 5 ]} one_map =
       Ok (VRef 1)
          (one_map ++ [{| widget := Polyline locs opts; popup := VNone |}])
     ∧ (∀ k v, ({[ "weight" := LInt 5 ]} : Kwargs) !! k = Some v →
               opts !! k = Some v)
     ∧ (({[ "weight" := LInt 5 ]} : Kwargs) !! "fill_opacity" = None →
        opts !! "fill_opacity" = Some (LInt 0))
     ∧ (({[ "weight" := LInt 5 ]} : Kwargs) !! "weight" = None →
        opts !! "weight" = Some (LInt 3))
     ∧ (∀ k, k ≠ "fill_opacity" → k ≠ "weight" →
          ({[ "weight" := LInt 5 ]} : Kwargs) !! k = None → opts !! k = None))
  ∧ (∃ locs opts,
       flightplan_leaflet sample_plan ∅ [] =
         Ok (VRef 0) [{| widget := Polyline locs opts; popup := VNone |}]
       ∧ (∀ k v, (∅ : Kwargs) !! k = Some v → opts !! k = Some v)
       ∧ ((∅ : Kwargs) !! "fill_opacity" = None →
          opts !! "fill_opacity" = Some (LInt 0))
       ∧ ((∅ : Kwargs) !! "weight" = None → opts !! "weight" = Some (LInt 3))
       ∧ (∀ k, k ≠ "fill_opacity" → k ≠ "weight" →
            (∅ : Kwargs) !! k = None → opts !! k = None)).
Proof.
  destruct polyline_options as [HF HP]. split.
  - apply (HF sample_flight [(2, 48, 1000); (3, 49, 2000)]%Z
              {[ "weight" := LInt 5 ]} one_map); reflexivity.
  - apply (HP sample_plan
              (shapely.LineString [shapely.XY 2 48; shapely.XYZ 3 49 0]) ∅ []);
      reflexivity.
Defined.

(** X2: a flight plan whose shape is a collection of line strings gives a
    [Polyline] with one list of locations per line string, in the order of
    the collection; each list has the length of its line string and holds
    at each index the (latitude, longitude) of the tuple at that index. *)
Theorem flightplan_leaflet_parts
  (flightplan : FlightPlan) (geoms : list (list shapely.Coord))
  (kwargs : Kwargs) (w : World) :
  flightplan_shape flightplan = Some (shapely.MultiLineString geoms) →
  kwargs !! "locations" = None →
  ∃ parts opts,
    flightplan_leaflet flightplan kwargs w =
      Ok (VRef (length w))
         (w ++ [{| widget := Polyline (Paths parts) opts; popup := VNone |}])
    ∧ length parts = length geoms
    ∧ ∀ i coords,
        geoms !! i = Some coords →
        ∃ locs,
          parts !! i = Some locs
          ∧ length locs = length coords
          ∧ (∀ j lon lat,
               coords !! j = Some (shapely.XY lon lat) →
               locs !! j = Some (lat, lon))
          ∧ (∀ j lon lat alt,
               coords !! j = Some (shapely.XYZ lon lat alt) →
               locs !! j = Some (lat, lon)).
Proof.
  intros Hs Hk. eexists _, _.
  split; [by rewrite (flightplan_leaflet_shape _ _ _ _ Hs Hk)|].
  split; [apply length_map|].
  intros i coords Hi. eexists. split; [by rewrite lookup_map, Hi|].
  split; [apply length_map|].
  split; intros; rewrite lookup_map; by simplify_option_eq.
Qed.

Lemma flightplan_leaflet_parts_witness :
  ∃ parts opts,
    flightplan_leaflet unresolved_parts_plan {[ "color" := LStr "red" ]} one_map =
      Ok (VRef 1)
         (one_map ++ [{| widget := Polyline (Paths parts) opts; popup := VNone |}])
    ∧ length parts = 2%nat
    ∧ ∀ i coords,
        [[shapely.XY 2 48; shapely.XY 3 49];
         [shapely.XYZ 5 50 0; shapely.XY 6 51]] !! i = Some coords →
        ∃ locs,
          parts !! i = Some locs
          ∧ length locs = length coords
          ∧ (∀ j lon lat,
               coords !! j = Some (shapely.XY lon lat) →
               locs !! j = Some (lat, lon))
          ∧ (∀ j lon lat alt,
               coords !! j = Some (shapely.XYZ lon lat alt) →
               locs !! j = Some (lat, lon)).
Proof.
  apply (flightplan_leaflet_parts unresolved_parts_plan
           [[shapely.XY 2 48; shapely.XY 3 49];
            [shapely.XYZ 5 50 0; shapely.XY 6 51]]); reflexivity.
Defined.

(** X3: a keyword argument that the converter passes itself is refused.
    With [locations] among the keyword arguments, flight_leaflet and
    flightplan_leaflet raise [TypeError] when there is a shape, and still
    return [None] when there is none, as the test of the shape comes first;
    airspace_leaflet raises [TypeError]; so does point_leaflet with
    [location] among them. *)
Theorem keyword_given_twice :
  (∀ flight kwargs v w,
     kwargs !! "locations" = Some v →
     flight_leaflet flight kwargs w =
       match flight_shape flight with
       | None => Ok VNone w
       | Some _ => Raise TypeError
       end)
  ∧ (∀ flightplan kwargs v w,
       kwargs !! "locations" = Some v →
       flightplan_leaflet flightplan kwargs w =
         match flightplan_shape flightplan with
         | None => Ok VNone w
         | Some _ => Raise TypeError
         end)
  ∧ (∀ airspace kwargs v w,
       kwargs !! "locations" = Some v →
       airspace_leaflet airspace kwargs w = Raise TypeError)
  ∧ (∀ point kwargs v w,
       kwargs !! "location" = Some v →
       point_leaflet point kwargs w = Raise TypeError).
Proof.
  split; [|split; [|split]].
  - intros flight kwargs v w Hk. unfold flight_leaflet.
    destruct (flight_shape flight); [|reflexivity].
    apply bind_Raise, (keyword_free_Raise _ _ v). by apply dict_merge_caller.
  - intros flightplan kwargs v w Hk. unfold flightplan_leaflet.
    destruct (flightplan_shape flightplan); [|reflexivity].
    apply bind_Raise, (keyword_free_Raise _ _ v). by apply dict_merge_caller.
  - intros airspace kwargs v w Hk. unfold airspace_leaflet.
    assert (dict_merge {[ "weight" := LInt 3 ]} kwargs !! "locations" = Some v)
      as Hm by by apply dict_merge_caller.
    destruct (flatten airspace); simpl; unfold bind at 1; simpl;
      by rewrite (bind_Raise _ _ _ _ (keyword_free_Raise _ _ _ _ Hm)).
  - intros point kwargs v w Hk. unfold point_leaflet.
    apply bind_Raise, (keyword_free_Raise _ _ v). by apply dict_merge_caller.
Qed.

Lemma keyword_given_twice_witness :
  flight_leaflet sample_flight {[ "locations" := LNone ]} one_map = Raise TypeError
  ∧ flight_leaflet single_position_flight {[ "locations" := LNone ]} one_map
    = Ok VNone one_map
  ∧ flightplan_leaflet sample_plan {[ "locations" := LNone ]} one_map
    = Raise TypeError
  ∧ airspace_leaflet sample_airspace {[ "locations" := LNone ]} one_map
    = Raise TypeError
  ∧ point_leaflet sample_point {[ "location" := LNone ]} one_map
    = Raise TypeError.
Proof.
  destruct keyword_given_twice as (HF & HP & HA & HM).
  split; [|split; [|split; [|split]]].
  - apply (HF sample_flight _ LNone). reflexivity.
  - apply (HF single_position_flight _ LNone). reflexivity.
  - apply (HP sample_plan _ LNone). reflexivity.
  - apply (HA sample_airspace _ LNone). reflexivity.
  - apply (HM sample_point _ LNone). reflexivity.
Defined.

(** X4: the options of the [Polygon] that airspace_leaflet builds are the
    keyword arguments of the caller, plus [weight=3] where the caller gives
    none, and nothing else: no [fill_opacity] is set for an airspace. *)
Theorem polygon_options (airspace : Airspace) (kwargs : Kwargs) (w : World) :
  kwargs !! "locations" = None →
  ∃ locs opts,
    airspace_leaflet airspace kwargs w =
      Ok (VRef (length w))
         (w ++ [{| widget := Polygon locs opts; popup := VNone |}])
    ∧ (∀ k v, kwargs !! k = Some v → opts !! k = Some v)
    ∧ (kwargs !! "weight" = None → opts !! "weight" = Some (LInt 3))
    ∧ (∀ k, k ≠ "weight" → kwargs !! k = None → opts !! k = None).
Proof.
  intros Hk. unfold airspace_leaflet.
  assert (dict_merge {[ "weight" := LInt 3 ]} kwargs !! "locations" = None) as Hm
    by by rewrite dict_merge_default.
  assert (∃ locs,
            (coords <-
               (if String.eqb (shapely.geom_type (flatten airspace)) "Polygon"
                then ext <- exterior (flatten airspace) ;;
                     ret (Path (map swap_lon_lat ext))
                else ps <- pieces (flatten airspace) ;;
                     ret (Paths (map (map swap_lon_lat) ps))) ;;
             keyword_free "locations" (dict_merge {[ "weight" := LInt 3 ]} kwargs) ;;
             new (Polygon coords (dict_merge {[ "weight" := LInt 3 ]} kwargs))) w
            = Ok (VRef (length w))
                 (w ++ [{| widget :=
                             Polygon locs (dict_merge {[ "weight" := LInt 3 ]} kwargs);
                           popup := VNone |}])) as [locs Hr].
  { destruct (flatten airspace); simpl; eexists; unfold bind at 1; simpl;
      by rewrite (bind_Ok _ _ _ _ _ (keyword_free_Ok _ _ _ Hm)). }
  exists locs, (dict_merge {[ "weight" := LInt 3 ]} kwargs).
  split; [exact Hr|split; [|split]].
  - intros k v. apply dict_merge_caller.
  - intros H. by rewrite dict_merge_default.
  - intros k Hw H. rewrite dict_merge_default by done.
    by rewrite lookup_singleton_ne.
Qed.

Lemma polygon_options_witness :
  ∃ locs opts,
    airspace_leaflet split_airspace {[ "color" := LStr "red" ]} one_map =
      Ok (VRef 1)
         (one_map ++ [{| widget := Polygon locs opts; popup := VNone |}])
    ∧ (∀ k v, ({[ "color" := LStr "red" ]} : Kwargs) !! k = Some v →
              opts !! k = Some v)
    ∧ (({[ "color" := LStr "red" ]} : Kwargs) !! "weight" = None →
       opts !! "weight" = Some (LInt 3))
    ∧ (∀ k, k ≠ "weight" →
         ({[ "color" := LStr "red" ]} : Kwargs) !! k = None → opts !! k = None).
Proof.
  apply (polygon_options split_airspace {[ "color" := LStr "red" ]} one_map).
  reflexivity.
Defined.

(** X5: for an airport whose runways are found, airport_leaflet returns a
    [GeoData] over the table of the runways.  Every keyword argument of the
    caller becomes an entry of its style, none is refused; the style has
    the colour "#79706e" and the weight 6 where the caller gives none, and
    nothing else. *)
Theorem airport_leaflet_style
  (airport : Airport) (df : DataFrame) (kwargs : Kwargs) (w : World) :
  runways airport = Some df →
  ∃ style,
    airport_leaflet airport kwargs w =
      Ok (VRef (length w))
         (w ++ [{| widget := GeoData df style; popup := VNone |}])
    ∧ (∀ k v, kwargs !! k = Some v → style !! k = Some v)
    ∧ (kwargs !! "color" = None → style !! "color" = Some (LStr "#79706e"))
    ∧ (kwargs !! "weight" = None → style !! "weight" = Some (LInt 6))
    ∧ (∀ k, k ≠ "color" → k ≠ "weight" → kwargs !! k = None → style !! k = None).
Proof.
  intros Hr. unfold airport_leaflet. rewrite Hr. eexists.
  split; [reflexivity|]. split; [|split; [|split]].
  - intros k v. apply dict_merge_caller.
  - intros H. by rewrite dict_merge_default.
  - intros H. by rewrite dict_merge_default.
  - intros k Hc Hw H. rewrite dict_merge_default by done.
    by rewrite lookup_insert_ne, lookup_singleton_ne.
Qed.

Lemma airport_leaflet_style_witness :
  ∃ style,
    airport_leaflet sample_airport {[ "locations" := LNone ]} one_map =
      Ok (VRef 1)
         (one_map ++ [{| widget := GeoData (Frame 7) style; popup := VNone |}])
    ∧ (∀ k v, ({[ "locations" := LNone ]} : Kwargs) !! k = Some v →
              style !! k = Some v)
    ∧ (({[ "locations" := LNone ]} : Kwargs) !! "color" = None →
       style !! "color" = Some (LStr "#79706e"))
    ∧ (({[ "locations" := LNone ]} : Kwargs) !! "weight" = None →
       style !! "weight" = Some (LInt 6))
    ∧ (∀ k, k ≠ "color" → k ≠ "weight" →
         ({[ "locations" := LNone ]} : Kwargs) !! k = None → style !! k = None).
Proof.
  apply (airport_leaflet_style sample_airport (Frame 7)
           {[ "locations" := LNone ]} one_map).
  reflexivity.
Defined.

(** ** Markers for state vectors *)

Lemma point_leaflet_Ok_inv point kwargs w v w' :
  point_leaflet point kwargs w = Ok v w' →
  v = VRef (length w) ∧ ∃ marker label, w' = w ++ [marker; label].
Proof.
  destruct (kwargs !! "location") as [x|] eqn:Hk.
  - unfold point_leaflet.
    erewrite bind_Raise; [discriminate|].
    apply (keyword_free_Raise _ _ x). by apply dict_merge_caller.
  - rewrite point_leaflet_Ok by done. intros H. inversion H. eauto.
Qed.

Section StateVectorFacts.

Variable kwargs : Kwargs.

(** The body of the generator at source line 232. *)
Let marker_of : PointMixin * Lit → M Value :=
  fun '(p, callsign) =>
    keyword_free "point" kwargs ;;
    keyword_free "title" kwargs ;;
    point_leaflet p (<["title" := callsign]> kwargs).

Lemma marker_of_Ok_inv item w v w' :
  marker_of item w = Ok v w' →
  v = VRef (length w) ∧ ∃ marker label, w' = w ++ [marker; label].
Proof.
  destruct item as [p callsign]. unfold marker_of. intros H.
  apply bind_inv_Ok in H as ([] & w1 & Hk & H).
  unfold keyword_free in Hk. destruct (kwargs !! "point"); [discriminate|].
  inversion Hk; subst w1. clear Hk.
  apply bind_inv_Ok in H as ([] & w1 & Hk & H).
  unfold keyword_free in Hk. destruct (kwargs !! "title"); [discriminate|].
  inversion Hk; subst w1. by apply point_leaflet_Ok_inv in H.
Qed.

Lemma markers_extend pts w ms w' :
  list_of marker_of pts w = Ok ms w' → w `prefix_of` w'.
Proof.
  revert w ms w'. induction pts as [|item pts IH]; intros w ms w' H; simpl in H.
  - by inversion H.
  - apply bind_inv_Ok in H as (v & w1 & Hv & H).
    apply bind_inv_Ok in H as (ms' & w2 & Hms & H).
    inversion H; subst. apply marker_of_Ok_inv in Hv as (_ & m & l & ->).
    apply IH in Hms. etrans; [|exact Hms]. by apply prefix_app_r.
Qed.

Hypothesis no_point : kwargs !! "point" = None.
Hypothesis no_title : kwargs !! "title" = None.
Hypothesis no_location : kwargs !! "location" = None.

Lemma marker_of_Ok p callsign w :
  marker_of (p, callsign) w =
    Ok (VRef (length w))
       (w ++ [{| widget :=
                   Marker (latitude p, longitude p)
                     (dict_merge
                        match point_name p with
                        | Some name => {[ "title" := LStr name ]}
                        | None => ∅
                        end (<["title" := callsign]> kwargs));
                 popup := VRef (S (length w)) |};
              {| widget := HTML (point_repr p); popup := VNone |}]).
Proof.
  unfold marker_of. rewrite !keyword_free_skip by done.
  apply point_leaflet_Ok. by rewrite lookup_insert_ne.
Qed.

Lemma markers_Ok pts w :
  ∃ w',
    list_of marker_of pts w =
      Ok (map (fun i => VRef (length w + 2 * i)) (seq 0 (length pts))) w'
    ∧ length w' = (length w + 2 * length pts)%nat
    ∧ w `prefix_of` w'
    ∧ ∀ i p callsign,
        pts !! i = Some (p, callsign) →
        ∃ opts,
          w' !! (length w + 2 * i)%nat =
            Some {| widget := Marker (latitude p, longitude p) opts;
                    popup := VRef (length w + 2 * i + 1) |}
          ∧ opts !! "title" = Some callsign
          ∧ (∀ k v, kwargs !! k = Some v → opts !! k = Some v)
          ∧ w' !! (length w + 2 * i + 1)%nat =
              Some {| widget := HTML (point_repr p); popup := VNone |}.
Proof.
  revert w. induction pts as [|[p callsign] pts IH]; intros w.
  - exists w. simpl. split; [done|]. split; [lia|]. split; [done|].
    intros i p callsign Hi. by rewrite lookup_nil in Hi.
  - cbn [list_of]. rewrite (bind_Ok _ _ _ _ _ (marker_of_Ok p callsign w)).
    set (m := {| widget := Marker _ _; popup := VRef (S (length w)) |}).
    set (h := {| widget := HTML _; popup := VNone |}).
    destruct (IH (w ++ [m; h])) as (w' & Hl & Hlen & Hpre & Hcells).
    rewrite length_app in Hl, Hlen, Hcells.
    change (length [m; h]) with 2%nat in Hl, Hlen, Hcells.
    exists w'. split; [|split; [|split]].
    + rewrite (bind_Ok _ _ _ _ _ Hl). unfold ret. f_equal.
      change (seq 0 (length ((p, callsign) :: pts)))
        with (0%nat :: seq 1 (length pts)).
      rewrite <- seq_shift. cbn [map]. rewrite map_map.
      f_equal; [f_equal; lia|].
      apply map_ext. intros i. f_equal. lia.
    + change (length ((p, callsign) :: pts)) with (S (length pts)). lia.
    + etrans; [|exact Hpre]. by apply prefix_app_r.
    + intros [|i] q c Hi.
      * assert (q = p ∧ c = callsign) as [-> ->] by (by inversion Hi).
        clear Hi. rewrite Nat.mul_0_r, Nat.add_0_r, Nat.add_1_r. eexists.
        split; [|split; [|split]].
        -- apply (prefix_lookup_Some (w ++ [m; h])); [|done].
           apply lookup_new_first.
        -- apply dict_merge_caller, lookup_insert_eq.
        -- intros k v Hk. apply dict_merge_caller.
           rewrite lookup_insert_ne; [done|]. intros <-.
           by rewrite no_title in Hk.
        -- apply (prefix_lookup_Some (w ++ [m; h])); [|done].
           rewrite lookup_app_r by lia.
           by replace (S (length w) - length w)%nat with 1%nat by lia.
      * destruct (Hcells i q c Hi) as (opts & Hm & Ht & Hk & Hh).
        exists opts.
        replace (length w + 2 * S i)%nat with (length w + 2 + 2 * i)%nat by lia.
        done.
Qed.

End StateVectorFacts.

(** X6: sv_leaflet returns a [MarkerCluster] with one marker per state
    vector, in the order of the state vectors.  The marker of a state vector
    is at its (latitude, longitude); its title is the callsign, also when
    the point has a name; it carries the keyword arguments of the caller;
    its popup is an [HTML] widget holding [repr] of the point.  Nothing that
    was in the heap is changed.  The caller's keyword arguments must name
    none of [point], [title] and [location], which the calls pass
    themselves. *)
Theorem sv_leaflet_cluster (sv : StateVectors) (kwargs : Kwargs) (w : World) :
  kwargs !! "point" = None →
  kwargs !! "title" = None →
  kwargs !! "location" = None →
  ∃ w',
    sv_leaflet sv kwargs w = Ok (VRef (length w + 2 * length (sv_points sv))) w'
    ∧ w `prefix_of` w'
    ∧ w' !! (length w + 2 * length (sv_points sv))%nat =
        Some {| widget :=
                  MarkerCluster
                    (map (fun i => VRef (length w + 2 * i))
                         (seq 0 (length (sv_points sv))));
                popup := VNone |}
    ∧ ∀ i p callsign,
        sv_points sv !! i = Some (p, callsign) →
        ∃ opts,
          w' !! (length w + 2 * i)%nat =
            Some {| widget := Marker (latitude p, longitude p) opts;
                    popup := VRef (length w + 2 * i + 1) |}
          ∧ opts !! "title" = Some callsign
          ∧ (∀ k v, kwargs !! k = Some v → opts !! k = Some v)
          ∧ w' !! (length w + 2 * i + 1)%nat =
              Some {| widget := HTML (point_repr p); popup := VNone |}.
Proof.
  intros Hp Ht Hl.
  destruct (markers_Ok kwargs Hp Ht Hl (sv_points sv) w)
    as (w1 & Hms & Hlen & Hpre & Hcells).
  eexists. split; [|split; [|split]].
  - unfold sv_leaflet. rewrite (bind_Ok _ _ _ _ _ Hms). unfold new.
    rewrite Hlen. reflexivity.
  - etrans; [exact Hpre|]. by apply prefix_app_r.
  - rewrite <- Hlen. apply lookup_new.
  - intros i p callsign Hi.
    destruct (Hcells i p callsign Hi) as (opts & Hm & Hti & Hk & Hh).
    exists opts. split; [|split; [|split]]; try done.
    + by apply lookup_app_l_Some.
    + by apply lookup_app_l_Some.
Qed.

Lemma sv_leaflet_cluster_witness :
  ∃ w',
    sv_leaflet sample_sv {[ "draggable" := LInt 0 ]} one_map = Ok (VRef 5) w'
    ∧ one_map `prefix_of` w'
    ∧ w' !! 5%nat =
        Some {| widget := MarkerCluster [VRef 1; VRef 3]; popup := VNone |}
    ∧ ∀ i p callsign,
        sv_points sample_sv !! i = Some (p, callsign) →
        ∃ opts,
          w' !! (1 + 2 * i)%nat =
            Some {| widget := Marker (latitude p, longitude p) opts;
                    popup := VRef (1 + 2 * i + 1) |}
          ∧ opts !! "title" = Some callsign
          ∧ (∀ k v, ({[ "draggable" := LInt 0 ]} : Kwargs) !! k = Some v →
                    opts !! k = Some v)
          ∧ w' !! (1 + 2 * i + 1)%nat =
              Some {| widget := HTML (point_repr p); popup := VNone |}.
Proof.
  apply (sv_leaflet_cluster sample_sv {[ "draggable" := LInt 0 ]} one_map);
    reflexivity.
Defined.

(** X7: sv_leaflet passes [title] itself, so a [title] among the keyword
    arguments makes it raise [TypeError] as soon as there is a state vector;
    without any state vector it returns an empty [MarkerCluster], whatever
    the keyword arguments. *)
Theorem sv_leaflet_title_twice :
  (∀ sv kwargs v w,
     kwargs !! "title" = Some v →
     sv_points sv ≠ [] →
     sv_leaflet sv kwargs w = Raise TypeError)
  ∧ (∀ sv kwargs w,
       sv_points sv = [] →
       sv_leaflet sv kwargs w =
         Ok (VRef (length w))
            (w ++ [{| widget := MarkerCluster []; popup := VNone |}])).
Proof.
  split.
  - intros sv kwargs v w Hk Hne. unfold sv_leaflet.
    destruct (sv_points sv) as [|[p callsign] pts]; [done|].
    apply bind_Raise. cbn [list_of]. apply bind_Raise.
    unfold bind at 1, keyword_free at 1.
    destruct (kwargs !! "point"); [reflexivity|]. simpl.
    by apply bind_Raise, (keyword_free_Raise _ _ v).
  - intros sv kwargs w H. unfold sv_leaflet. rewrite H. reflexivity.
Qed.

Lemma sv_leaflet_title_twice_witness :
  sv_leaflet sample_sv {[ "title" := LStr "x" ]} one_map = Raise TypeError
  ∧ sv_leaflet {| sv_points := [] |} {[ "title" := LStr "x" ]} one_map =
      Ok (VRef 1)
         (one_map ++ [{| widget := MarkerCluster []; popup := VNone |}]).
Proof.
  destruct sv_leaflet_title_twice as [H1 H2]. split.
  - apply (H1 sample_sv _ (LStr "x")); [reflexivity|discriminate].
  - apply (H2 {| sv_points := [] |}). reflexivity.
Defined.

(** ** The converters and the heap *)

Lemma builds_only_new wd w : builds_only w (new wd w).
Proof.
  unfold new. simpl. split; [by apply prefix_app_r|].
  right. eexists. split; [done|]. rewrite length_app. simpl. lia.
Qed.

Lemma builds_only_bind_keyword name (kwargs : Kwargs) wd w :
  builds_only w ((keyword_free name kwargs ;; new wd) w).
Proof.
  unfold bind, keyword_free. destruct (kwargs !! name); simpl; [done|].
  apply builds_only_new.
Qed.

(** X8: no converter changes a widget that is already in the heap.  When
    flight_leaflet, flightplan_leaflet, airspace_leaflet, airport_leaflet,
    point_leaflet or sv_leaflet returns, the heap is the heap it started
    from with new widgets behind it, and the value returned is [None] or
    one of the new widgets. *)
Theorem converters_build_only (kwargs : Kwargs) (w : World) :
  (∀ flight, builds_only w (flight_leaflet flight kwargs w))
  ∧ (∀ flightplan, builds_only w (flightplan_leaflet flightplan kwargs w))
  ∧ (∀ airspace, builds_only w (airspace_leaflet airspace kwargs w))
  ∧ (∀ airport, builds_only w (airport_leaflet airport kwargs w))
  ∧ (∀ point, builds_only w (point_leaflet point kwargs w))
  ∧ (∀ sv, builds_only w (sv_leaflet sv kwargs w)).
Proof.
  split; [|split; [|split; [|split; [|split]]]].
  - intros flight. unfold flight_leaflet.
    destruct (flight_shape flight); [apply builds_only_bind_keyword|].
    simpl. split; [done|by left].
  - intros flightplan. unfold flightplan_leaflet.
    destruct (flightplan_shape flightplan); [apply builds_only_bind_keyword|].
    simpl. split; [done|by left].
  - intros airspace. unfold airspace_leaflet.
    destruct (flatten airspace); simpl; unfold bind at 1; simpl;
      apply builds_only_bind_keyword.
  - intros airport. unfold airport_leaflet.
    destruct (runways airport); [apply builds_only_new|done].
  - intros point. unfold builds_only.
    destruct (point_leaflet point kwargs w) as [v w'|e] eqn:H; [|done].
    apply point_leaflet_Ok_inv in H as (-> & m & l & ->).
    split; [by apply prefix_app_r|].
    right. eexists. split; [done|]. rewrite length_app. simpl. lia.
  - intros sv. unfold builds_only.
    destruct (sv_leaflet sv kwargs w) as [v w'|e] eqn:H; [|done].
    unfold sv_leaflet in H. apply bind_inv_Ok in H as (ms & w1 & Hms & H).
    apply markers_extend in Hms. inversion H; subst.
    split; [etrans; [exact Hms|]; by apply prefix_app_r|].
    right. eexists. split; [done|]. rewrite length_app. simpl.
    apply prefix_length in Hms. lia.
Qed.

(** ** The patched [add_layer] once the plugin is loaded *)

(** X9: once [_onload] has run, [m.add_layer(elt)] on an airport, an
    airspace, a flight, a flight plan, a point or state vectors runs the
    converter of that kind of object on the keyword arguments, hands the
    layer to the original [add_layer] and returns the layer, whatever the
    classes held before the hook ran.  The keyword arguments must name
    none of the parameters that the calls bind by position: [_map] and
    [elt] of map_add_layer, and the first parameter of the converter. *)
Theorem add_layer_after_onload
  (T : ClassTable) (_old_add_layer : Value → Value → M Value)
  (other_call : Function → list Value → Kwargs → M Value)
  (m : Value) (kwargs : Kwargs) (w : World) :
  kwargs !! "_map" = None →
  kwargs !! "elt" = None →
  (∀ a, kwargs !! "airport" = None →
        call_add_layer (_onload T) _old_add_layer other_call m (VAirport a) kwargs w
        = (layer <- airport_leaflet a kwargs ;;
           _old_add_layer m layer ;; ret layer) w)
  ∧ (∀ a, kwargs !! "airspace" = None →
          call_add_layer (_onload T) _old_add_layer other_call m (VAirspace a) kwargs w
          = (layer <- airspace_leaflet a kwargs ;;
             _old_add_layer m layer ;; ret layer) w)
  ∧ (∀ f, kwargs !! "flight" = None →
          call_add_layer (_onload T) _old_add_layer other_call m (VFlight f) kwargs w
          = (layer <- flight_leaflet f kwargs ;;
             _old_add_layer m layer ;; ret layer) w)
  ∧ (∀ p, kwargs !! "flightplan" = None →
          call_add_layer (_onload T) _old_add_layer other_call m (VFlightPlan p) kwargs w
          = (layer <- flightplan_leaflet p kwargs ;;
             _old_add_layer m layer ;; ret layer) w)
  ∧ (∀ p, kwargs !! "point" = None →
          call_add_layer (_onload T) _old_add_layer other_call m (VPoint p) kwargs w
          = (layer <- point_leaflet p kwargs ;;
             _old_add_layer m layer ;; ret layer) w)
  ∧ (∀ sv, kwargs !! "sv" = None →
           call_add_layer (_onload T) _old_add_layer other_call m (VStateVectors sv) kwargs w
           = (layer <- sv_leaflet sv kwargs ;;
              _old_add_layer m layer ;; ret layer) w).
Proof.
  intros Hm He.
  destruct (call_leaflet_onload T other_call kwargs)
    as (H1 & H2 & H3 & H4 & H5 & H6).
  repeat split; intros x Hx; unfold call_add_layer;
    rewrite getattr_onload_add_layer, !keyword_free_skip by done;
    rewrite map_add_layer_layer by reflexivity;
    by rewrite ?H1, ?H2, ?H3, ?H4, ?H5, ?H6, keyword_free_skip.
Qed.

Lemma add_layer_after_onload_witness :
  call_add_layer (_onload fresh_classes) ipyleaflet_add_layer no_other_call
    (VRef 0) (VAirport sample_airport) {[ "color" := LStr "red" ]} one_map
  = (layer <- airport_leaflet sample_airport {[ "color" := LStr "red" ]} ;;
     ipyleaflet_add_layer (VRef 0) layer ;; ret layer) one_map
  ∧ call_add_layer (_onload fresh_classes) ipyleaflet_add_layer no_other_call
      (VRef 0) (VAirspace sample_airspace) {[ "color" := LStr "red" ]} one_map
    = (layer <- airspace_leaflet sample_airspace {[ "color" := LStr "red" ]} ;;
       ipyleaflet_add_layer (VRef 0) layer ;; ret layer) one_map
  ∧ call_add_layer (_onload fresh_classes) ipyleaflet_add_layer no_other_call
      (VRef 0) (VFlight sample_flight) {[ "color" := LStr "red" ]} one_map
    = (layer <- flight_leaflet sample_flight {[ "color" := LStr "red" ]} ;;
       ipyleaflet_add_layer (VRef 0) layer ;; ret layer) one_map
  ∧ call_add_layer (_onload fresh_classes) ipyleaflet_add_layer no_other_call
      (VRef 0) (VFlightPlan sample_plan) {[ "color" := LStr "red" ]} one_map
    = (layer <- flightplan_leaflet sample_plan {[ "color" := LStr "red" ]} ;;
       ipyleaflet_add_layer (VRef 0) layer ;; ret layer) one_map
  ∧ call_add_layer (_onload fresh_classes) ipyleaflet_add_layer no_other_call
      (VRef 0) (VPoint sample_point) {[ "color" := LStr "red" ]} one_map
    = (layer <- point_leaflet sample_point {[ "color" := LStr "red" ]} ;;
       ipyleaflet_add_layer (VRef 0) layer ;; ret layer) one_map
  ∧ call_add_layer (_onload fresh_classes) ipyleaflet_add_layer no_other_call
      (VRef 0) (VStateVectors sample_sv) {[ "color" := LStr "red" ]} one_map
    = (layer <- sv_leaflet sample_sv {[ "color" := LStr "red" ]} ;;
       ipyleaflet_add_layer (VRef 0) layer ;; ret layer) one_map.
Proof.
  assert (({[ "color" := LStr "red" ]} : Kwargs) !! "_map" = None) as Hm
    by reflexivity.
  assert (({[ "color" := LStr "red" ]} : Kwargs) !! "elt" = None) as He
    by reflexivity.
  destruct (add_layer_after_onload fresh_classes ipyleaflet_add_layer
              no_other_call (VRef 0) {[ "color" := LStr "red" ]} one_map
              Hm He) as (H1 & H2 & H3 & H4 & H5 & H6).
  split; [|split; [|split; [|split; [|split]]]].
  - apply H1. reflexivity.
  - apply H2. reflexivity.
  - apply H3. reflexivity.
  - apply H4. reflexivity.
  - apply H5. reflexivity.
  - apply H6. reflexivity.
Defined.

(** X10: once [_onload] has run, [m.add_layer] on a flight or a flight plan
    without shape does not stop at the missing layer: it calls the original
    [add_layer] with [None] as the layer, and returns [None] if that call
    returns.  The keyword arguments must name none of the parameters that
    the calls bind by position: [_map] and [elt] of map_add_layer, and the
    first parameter of the converter. *)
Theorem add_layer_without_shape
  (T : ClassTable) (_old_add_layer : Value → Value → M Value)
  (other_call : Function → list Value → Kwargs → M Value)
  (m : Value) (kwargs : Kwargs) (w : World) :
  kwargs !! "_map" = None →
  kwargs !! "elt" = None →
  (∀ flight,
     kwargs !! "flight" = None →
     flight_shape flight = None →
     call_add_layer (_onload T) _old_add_layer other_call m (VFlight flight) kwargs w
     = (_old_add_layer m VNone ;; ret VNone) w)
  ∧ (∀ flightplan,
       kwargs !! "flightplan" = None →
       flightplan_shape flightplan = None →
       call_add_layer (_onload T) _old_add_layer other_call m
         (VFlightPlan flightplan) kwargs w
       = (_old_add_layer m VNone ;; ret VNone) w).
Proof.
  intros Hm He.
  destruct (call_leaflet_onload T other_call kwargs) as (_ & _ & H3 & H4 & _).
  split; intros x Hx Hs; unfold call_add_layer;
    rewrite getattr_onload_add_layer, !keyword_free_skip by done;
    rewrite map_add_layer_layer by reflexivity;
    rewrite ?H3, ?H4, keyword_free_skip by done; unfold bind at 1.
  - by rewrite flight_leaflet_no_shape.
  - by rewrite flightplan_leaflet_no_shape.
Qed.

Lemma add_layer_without_shape_witness :
  call_add_layer (_onload fresh_classes) (fun _ _ => ret VNone) no_other_call
    (VRef 0) (VFlight single_position_flight) {[ "color" := LStr "red" ]} one_map
  = ((fun _ _ => ret VNone) (VRef 0) VNone ;; ret VNone) one_map
  ∧ call_add_layer (_onload fresh_classes) ipyleaflet_add_layer no_other_call
      (VRef 0) (VFlightPlan unresolved_plan) ∅ one_map
    = (ipyleaflet_add_layer (VRef 0) VNone ;; ret VNone) one_map.
Proof.
  assert (({[ "color" := LStr "red" ]} : Kwargs) !! "_map" = None) as Hm
    by reflexivity.
  assert (({[ "color" := LStr "red" ]} : Kwargs) !! "elt" = None) as He
    by reflexivity.
  destruct (add_layer_without_shape fresh_classes (fun _ _ => ret VNone)
              no_other_call (VRef 0) {[ "color" := LStr "red" ]} one_map
              Hm He) as [HF _].
  destruct (add_layer_without_shape fresh_classes ipyleaflet_add_layer
              no_other_call (VRef 0) ∅ one_map
              (lookup_empty _) (lookup_empty _)) as [_ HP].
  split.
  - apply HF; reflexivity.
  - apply HP; reflexivity.
Defined.

(** ** More on the load hook *)

(** X11: [_onload] sets nine attributes and touches nothing else: every
    other attribute of every class is what it was before, present or
    absent. *)
Theorem onload_keeps_the_rest (T : ClassTable) (c : cls.t) (name : string) :
  (c, name) ∉ onload_entries →
  _onload T c !! name = T c !! name.
Proof.
  intros H. unfold _onload, setattr.
  destruct c; simpl;
    repeat (rewrite lookup_insert_ne;
            [|intros <-; apply H; unfold onload_entries; set_solver]);
    reflexivity.
Qed.

Lemma onload_keeps_the_rest_witness :
  _onload fresh_classes cls.Flight !! "plot" = fresh_classes cls.Flight !! "plot"
  ∧ _onload fresh_classes cls.Traffic !! "leaflet"
    = fresh_classes cls.Traffic !! "leaflet".
Proof.
  split; apply onload_keeps_the_rest; unfold onload_entries;
    intros H; repeat (apply elem_of_cons in H as [H|H]; [discriminate|]);
    by apply elem_of_nil in H.
Defined.

(** X12: running [_onload] a second time changes nothing. *)
Theorem onload_twice (T : ClassTable) (c : cls.t) :
  _onload (_onload T) c = _onload T c.
Proof.
  apply map_eq. intros name. unfold _onload.
  destruct (decide (name = "leaflet")) as [->|];
    [destruct c; setattr_lookup|].
  destruct (decide (name = "map_leaflet")) as [->|];
    [destruct c; setattr_lookup|].
  destruct (decide (name = "add_layer")) as [->|];
    [destruct c; setattr_lookup|].
  destruct c;
    repeat first
      [ rewrite setattr_other_class by discriminate
      | rewrite setattr_other_name by done ];
    reflexivity.
Qed.

(** ** Iterators of flights *)

Section IteratorFacts.

Variable leaflet : Value → Kwargs → M Value.
Variable _old_add_layer : Value → Value → M Value.

Let add := map_add_layer leaflet _old_add_layer.

Lemma iterator_app _map xs ys kwargs w :
  add _map (VFlightIterator (xs ++ ys)) kwargs w =
    (add _map (VFlightIterator xs) kwargs ;;
     add _map (VFlightIterator ys) kwargs) w.
Proof.
  unfold add. rewrite map_add_layer_segments.
  rewrite (bind_cong _ _ _ _ (for_each_app _ xs ys w)), bind_assoc.
  rewrite (bind_cong _ _ _ _ (map_add_layer_segments _ _ _ xs kwargs w)).
  rewrite bind_assoc. apply bind_ext. intros _ w1.
  symmetry. apply map_add_layer_segments.
Qed.

Lemma iterator_single _map elt kwargs w :
  add _map (VFlightIterator [elt]) kwargs w =
    (add _map elt kwargs ;; ret VNone) w.
Proof.
  unfold add. rewrite map_add_layer_segments. cbn [for_each].
  rewrite !bind_assoc. apply bind_ext. intros _ w1. reflexivity.
Qed.

End IteratorFacts.

(** X13: for map_add_layer an iterator is the sequence of its segments.
    An empty iterator adds nothing, calls nothing and gives [None];
    an iterator that yields the segments of one iterator and then those of
    another is added as the first followed by the second, so that nothing
    of the second is added when the first raises; and an iterator met as a
    segment is added as if its segments stood in its place. *)
Theorem map_add_layer_iterator_sequence
  (leaflet : Value → Kwargs → M Value)
  (_old_add_layer : Value → Value → M Value)
  (_map : Value) (kwargs : Kwargs) (w : World) :
  map_add_layer leaflet _old_add_layer _map (VFlightIterator []) kwargs w
    = Ok VNone w
  ∧ (∀ xs ys,
       map_add_layer leaflet _old_add_layer _map
         (VFlightIterator (xs ++ ys)) kwargs w =
         (map_add_layer leaflet _old_add_layer _map (VFlightIterator xs) kwargs ;;
          map_add_layer leaflet _old_add_layer _map (VFlightIterator ys) kwargs) w)
  ∧ (∀ xs ys zs,
       map_add_layer leaflet _old_add_layer _map
         (VFlightIterator (xs ++ VFlightIterator ys :: zs)) kwargs w =
       map_add_layer leaflet _old_add_layer _map
         (VFlightIterator (xs ++ ys ++ zs)) kwargs w).
Proof.
  split; [reflexivity|]. split; [intros; apply iterator_app|].
  intros xs ys zs.
  rewrite !iterator_app. apply bind_ext. intros _ w1.
  change (VFlightIterator ys :: zs) with ([VFlightIterator ys] ++ zs).
  rewrite !iterator_app.
  rewrite (bind_cong _ _ _ _ (iterator_single _ _ _ _ kwargs w1)), bind_assoc.
  apply bind_ext. intros _ w2. reflexivity.
Qed.

(** ** Highlights, centre and zoom of the maps *)

Section HighlightFacts.

Variable T : ClassTable.
Variable _old_add_layer : Value → Value → M Value.
Variable other_call : Function → list Value → Kwargs → M Value.
Variable airports : string → option Airport.

Lemma highlight_item_skipped m flight item w :
  skipped T flight item →
  highlight_item T _old_add_layer other_call m flight item w = Ok tt w.
Proof.
  destruct item as [color [name|f|g]]; unfold skipped; simpl; try done.
  - by intros ->.
  - by intros ->.
Qed.

Lemma highlights_skipped m flight items w :
  Forall (skipped T flight) items →
  for_each (highlight_item T _old_add_layer other_call m flight) items w
  = Ok tt w.
Proof.
  intros H. revert w.
  induction H as [|item items Hi _ IH]; intros w; [reflexivity|].
  cbn [for_each]. rewrite (bind_Ok _ _ _ _ _ (highlight_item_skipped _ _ _ _ Hi)).
  apply IH.
Qed.

(** Flights that are neither drawn nor highlighted leave the heap as it
    is. *)
Lemma for_each_nothing (m : Value) (items : list (string * Highlight))
  (fs : list Flight) w :
  Forall (fun f => query_latitude f = None ∧ Forall (skipped T f) items) fs →
  for_each
    (fun flight =>
       (match query_latitude flight with
        | Some _ =>
            elt <- call_add_layer T _old_add_layer other_call m (VFlight flight) ∅ ;;
            attach_info elt flight
        | None => ret tt
        end) ;;
       for_each (highlight_item T _old_add_layer other_call m flight) items)
    fs w = Ok tt w.
Proof.
  intros H. revert w.
  induction H as [|f fs [Hq Hs] _ IH]; intros w; [reflexivity|].
  cbn [for_each]. rewrite Hq. unfold bind at 1 2, ret at 1.
  rewrite highlights_skipped by done. apply IH.
Qed.

End HighlightFacts.

(** X14: highlights that show nothing are as good as no highlight.  When
    every entry of [highlight] is a name that [Flight] does not have or a
    function that gives [None] on the flight, flight_map_leaflet does what
    it does with [highlight=None]; so does traffic_map_leaflet when this
    holds for every flight of the traffic. *)
Theorem highlights_that_show_nothing
  (T : ClassTable) (_old_add_layer : Value → Value → M Value)
  (other_call : Function → list Value → Kwargs → M Value)
  (airports : string → option Airport)
  (items : list (string * Highlight)) (zoom : Z) (airport : AirportArg)
  (kwargs : Kwargs) (w : World) :
  (∀ flight,
     Forall (skipped T flight) items →
     flight_map_leaflet T _old_add_layer other_call airports
       flight zoom (Some items) airport kwargs w
     = flight_map_leaflet T _old_add_layer other_call airports
         flight zoom None airport kwargs w)
  ∧ (∀ traffic,
       Forall (fun flight => Forall (skipped T flight) items) (flights traffic) →
       traffic_map_leaflet T _old_add_layer other_call airports
         traffic zoom (Some items) airport kwargs w
       = traffic_map_leaflet T _old_add_layer other_call airports
           traffic zoom None airport kwargs w).
Proof.
  split.
  - intros flight Hs. unfold flight_map_leaflet.
    destruct (query_latitude flight) as [sel|]; [|reflexivity].
    destruct (at_last sel); [|reflexivity]. simpl.
    apply bind_ext. intros m w1. apply bind_ext. intros elt w2.
    apply bind_ext. intros _ w3. apply bind_cong.
    by rewrite highlights_skipped.
  - intros traffic Hs. unfold traffic_map_leaflet.
    apply bind_ext. intros m w1. apply bind_cong. simpl.
    apply for_each_ext. intros flight Hf w2.
    apply bind_ext. intros _ w3.
    rewrite Forall_forall in Hs. by rewrite highlights_skipped by auto.
Qed.

Lemma highlights_that_show_nothing_witness :
  flight_map_leaflet (_onload fresh_classes) ipyleaflet_add_layer
    no_other_call (fun _ => None) sample_flight default_zoom
    (Some [("red", HStr "landing"); ("blue", HCall (fun _ => None))])
    NoAirport ∅ []
  = flight_map_leaflet (_onload fresh_classes) ipyleaflet_add_layer
      no_other_call (fun _ => None) sample_flight default_zoom None
      NoAirport ∅ []
  ∧ traffic_map_leaflet (_onload fresh_classes) ipyleaflet_add_layer
      no_other_call (fun _ => None)
      {| flights := [sample_flight; blind_flight]; traffic_mean := (48, 2)%Z |}
      default_zoom
      (Some [("red", HStr "landing"); ("blue", HCall (fun _ => None))])
      NoAirport ∅ []
    = traffic_map_leaflet (_onload fresh_classes) ipyleaflet_add_layer
        no_other_call (fun _ => None)
        {| flights := [sample_flight; blind_flight]; traffic_mean := (48, 2)%Z |}
        default_zoom None NoAirport ∅ [].
Proof.
  destruct (highlights_that_show_nothing (_onload fresh_classes)
              ipyleaflet_add_layer no_other_call (fun _ => None)
              [("red", HStr "landing"); ("blue", HCall (fun _ => None))]
              default_zoom NoAirport ∅ []) as [HF HT].
  split.
  - apply HF. repeat constructor.
  - apply HT. repeat constructor.
Defined.

(** X15: a traffic with nothing to draw still gives its map.  When no
    airport is resolved, no flight of the traffic has a valid latitude and
    no highlight shows anything, traffic_map_leaflet returns a new [Map]
    with no layer, and changes nothing else; the original [add_layer] is not
    called.  The options of the map are the keyword arguments of the caller
    and the zoom; the centre is the one the caller gives, the mean position
    of the traffic otherwise.  [zoom] is a parameter of its own and is no
    keyword argument. *)
Theorem traffic_map_leaflet_nothing_to_draw
  (T : ClassTable) (_old_add_layer : Value → Value → M Value)
  (other_call : Function → list Value → Kwargs → M Value)
  (airports : string → option Airport)
  (traffic : Traffic) (zoom : Z) (highlight : option (list (string * Highlight)))
  (airport : AirportArg) (kwargs : Kwargs) (w : World) :
  resolve_airport airports airport = None →
  Forall (fun f => query_latitude f = None
                   ∧ Forall (skipped T f) (default [] highlight))
         (flights traffic) →
  kwargs !! "zoom" = None →
  ∃ opts,
    traffic_map_leaflet T _old_add_layer other_call airports
      traffic zoom highlight airport kwargs w =
      Ok (VRef (length w))
         (w ++ [{| widget := Map opts []; popup := VNone |}])
    ∧ opts !! "zoom" = Some (LInt zoom)
    ∧ opts !! "center" =
        Some (default (LPair (LFloat (traffic_mean traffic).1)
                             (LFloat (traffic_mean traffic).2))
                      (kwargs !! "center"))
    ∧ (∀ k v, kwargs !! k = Some v → opts !! k = Some v)
    ∧ (∀ k, k ≠ "zoom" → k ≠ "center" → kwargs !! k = None → opts !! k = None).
Proof.
  intros Ha Hf Hz.
  exists (<["zoom" := LInt zoom]> (with_center None (traffic_mean traffic) kwargs)).
  split; [|split; [|split; [|split]]].
  - rewrite <- (with_center_lookup None (traffic_mean traffic)) in Hz by done.
    unfold traffic_map_leaflet, new_map. rewrite Ha.
    rewrite bind_assoc. rewrite (bind_Ok _ _ _ _ _ (keyword_free_Ok _ _ _ Hz)).
    rewrite bind_assoc. unfold bind at 1, new at 1. unfold bind at 1, ret at 1.
    unfold bind at 1. by rewrite for_each_nothing.
  - apply lookup_insert_eq.
  - rewrite lookup_insert_ne by done. unfold with_center.
    destruct (kwargs !! "center") eqn:Hc; [done|]. apply lookup_insert_eq.
  - intros k v Hk. rewrite lookup_insert_ne by (intros <-; congruence).
    unfold with_center. destruct (kwargs !! "center") eqn:Hc; [done|].
    rewrite lookup_insert_ne by (intros <-; congruence). done.
  - intros k Hkz Hkc Hk. rewrite lookup_insert_ne by done.
    by rewrite with_center_lookup.
Qed.

Lemma traffic_map_leaflet_nothing_to_draw_witness :
  ∃ opts,
    traffic_map_leaflet (_onload fresh_classes) ipyleaflet_add_layer
      no_other_call (fun _ => None)
      {| flights := [blind_flight]; traffic_mean := (48, 2)%Z |}
      default_zoom (Some [("red", HStr "landing")]) (AirportName "XXXX")
      {[ "scroll_wheel_zoom" := LInt 1 ]} one_map =
      Ok (VRef 1)
         (one_map ++ [{| widget := Map opts []; popup := VNone |}])
    ∧ opts !! "zoom" = Some (LInt 7)
    ∧ opts !! "center" = Some (LPair (LFloat 48) (LFloat 2))
    ∧ (∀ k v, ({[ "scroll_wheel_zoom" := LInt 1 ]} : Kwargs) !! k = Some v →
              opts !! k = Some v)
    ∧ (∀ k, k ≠ "zoom" → k ≠ "center" →
         ({[ "scroll_wheel_zoom" := LInt 1 ]} : Kwargs) !! k = None →
         opts !! k = None).
Proof.
  assert (Forall (fun f => query_latitude f = None
                           ∧ Forall (skipped (_onload fresh_classes) f)
                                    [("red", HStr "landing")])
                 [blind_flight]) as Hf by repeat constructor.
  exact (traffic_map_leaflet_nothing_to_draw (_onload fresh_classes)
           ipyleaflet_add_layer no_other_call (fun _ => None)
           {| flights := [blind_flight]; traffic_mean := (48, 2)%Z |}
           default_zoom (Some [("red", HStr "landing")]) (AirportName "XXXX")
           {[ "scroll_wheel_zoom" := LInt 1 ]} one_map eq_refl Hf eq_refl).
Defined.

(** X16: what the two map functions can return.  flight_map_leaflet returns
    either [None], and then it has changed nothing, or the map it created
    first; traffic_map_leaflet returns the map it created first.  Neither
    returns a layer or a map that was there before. *)
Theorem map_leaflet_results
  (T : ClassTable) (_old_add_layer : Value → Value → M Value)
  (other_call : Function → list Value → Kwargs → M Value)
  (airports : string → option Airport)
  (zoom : Z) (highlight : option (list (string * Highlight)))
  (airport : AirportArg) (kwargs : Kwargs) (w : World) :
  (∀ flight v w',
     flight_map_leaflet T _old_add_layer other_call airports
       flight zoom highlight airport kwargs w = Ok v w' →
     (v = VNone ∧ w' = w) ∨ v = VRef (length w))
  ∧ (∀ traffic v w',
       traffic_map_leaflet T _old_add_layer other_call airports
         traffic zoom highlight airport kwargs w = Ok v w' →
       v = VRef (length w)).
Proof.
  split.
  - intros flight v w' H. unfold flight_map_leaflet in H.
    destruct (query_latitude flight) as [sel|]; [|discriminate].
    destruct (at_last sel) as [pos|]; simpl in H; [|left; by inversion H].
    right.
    apply bind_inv_Ok in H as (m & w1 & Hm & H).
    apply new_map_ref in Hm as ->.
    apply bind_inv_Ok in H as (? & ? & _ & H).
    apply bind_inv_Ok in H as (? & ? & _ & H).
    apply bind_inv_Ok in H as (? & ? & _ & H).
    by inversion H.
  - intros traffic v w' H. unfold traffic_map_leaflet in H.
    apply bind_inv_Ok in H as (m & w1 & Hm & H).
    apply new_map_ref in Hm as ->.
    apply bind_inv_Ok in H as (? & ? & _ & H).
    by inversion H.
Qed.

Lemma map_leaflet_results_witness :
  ((VNone = VNone ∧ one_map = one_map) ∨ VNone = VRef (length one_map))
  ∧ ((VRef 1 = VNone
      ∧ one_map ++ [{| widget := Map {[ "center" := LPair (LFloat 48) (LFloat 2);
                                        "zoom" := LInt 7 ]} [VRef 2];
                       popup := VNone |};
                    {| widget := Polyline (Path [(48, 2); (49, 3)]%Z) line_defaults;
                       popup := VRef 3 |};
                    {| widget := HTML "<b>AFR1</b>"; popup := VNone |}] = one_map)
     ∨ VRef 1 = VRef (length one_map))
  ∧ VRef 1 = VRef (length one_map).
Proof.
  destruct (map_leaflet_results (_onload fresh_classes) ipyleaflet_add_layer
              no_other_call (fun _ => None) default_zoom None NoAirport ∅
              one_map) as [HF HT].
  split; [|split].
  - apply (HF {| flight_shape := None;
                 query_latitude := Some {| at_last := None |};
                 flight_mean := (0, 0)%Z; _info_html := "" |}).
    reflexivity.
  - apply (HF sample_flight). reflexivity.
  - apply (HT {| flights := [blind_flight]; traffic_mean := (48, 2)%Z |}
              (VRef 1)
              (one_map ++ [{| widget := Map {[ "center" := LPair (LFloat 48) (LFloat 2);
                                               "zoom" := LInt 7 ]} [];
                              popup := VNone |}])).
    reflexivity.
Defined.

(** X17: the options of the [Marker] that point_leaflet builds are the
    keyword arguments of the caller, plus a title when the caller gives
    none and the point has a name.  A point without a name gets no title of
    its own, and nothing else is added. *)
Theorem marker_options (point : PointMixin) (kwargs : Kwargs) (w : World) :
  kwargs !! "location" = None →
  ∃ label opts,
    point_leaflet point kwargs w =
      Ok (VRef (length w))
         (w ++ [{| widget := Marker (latitude point, longitude point) opts;
                   popup := VRef (S (length w)) |}; label])
    ∧ opts !! "title" =
        match kwargs !! "title" with
        | Some title => Some title
        | None => LStr <$> point_name point
        end
    ∧ (∀ k, k ≠ "title" → opts !! k = kwargs !! k).
Proof.
  intros Hk. eexists _, _. split; [by apply point_leaflet_Ok|]. split.
  - rewrite dict_merge_lookup. destruct (kwargs !! "title"); [done|].
    destruct (point_name point); [apply lookup_singleton_eq|apply lookup_empty].
  - intros k Hne. rewrite dict_merge_lookup. destruct (kwargs !! k); [done|].
    destruct (point_name point); [by apply lookup_singleton_ne|apply lookup_empty].
Qed.

Lemma marker_options_witness :
  ∃ label opts,
    point_leaflet
      {| latitude := 50; longitude := 3;
         point_name := None; point_repr := "(50, 3)" |}
      {[ "draggable" := LInt 0 ]} one_map =
      Ok (VRef 1)
         (one_map ++ [{| widget := Marker (50, 3)%Z opts; popup := VRef 2 |};
                      label])
    ∧ opts !! "title" =
        match ({[ "draggable" := LInt 0 ]} : Kwargs) !! "title" with
        | Some title => Some title
        | None => LStr <$> None
        end
    ∧ (∀ k, k ≠ "title" →
         opts !! k = ({[ "draggable" := LInt 0 ]} : Kwargs) !! k).
Proof.
  apply (marker_options
           {| latitude := 50; longitude := 3;
              point_name := None; point_repr := "(50, 3)" |}
           {[ "draggable" := LInt 0 ]} one_map).
  reflexivity.
Defined.

(** ** Keyword arguments that name a parameter bound by position *)

(** X18: a keyword argument may not name a parameter that a call of this
    module binds by position.  Once [_onload] has run, [m.add_layer] raises
    [TypeError] when a keyword argument is called [_map] or [elt], the
    parameters of map_add_layer, and when it is called like the first
    parameter of the converter of the element ([airport], [airspace],
    [flight], [flightplan], [point], [sv]): whatever the original
    [add_layer] is, it has no part in the result.  sv_leaflet raises
    [TypeError] when a keyword argument is called [point] and there is a
    state vector. *)
Theorem positional_parameter_named :
  (∀ T _old_add_layer other_call m elt (kwargs : Kwargs) v w,
     kwargs !! "_map" = Some v ∨ kwargs !! "elt" = Some v →
     call_add_layer (_onload T) _old_add_layer other_call m elt kwargs w
     = Raise TypeError)
  ∧ (∀ T _old_add_layer other_call m (kwargs : Kwargs) v w,
       (∀ a, kwargs !! "airport" = Some v →
             call_add_layer (_onload T) _old_add_layer other_call m
               (VAirport a) kwargs w = Raise TypeError)
       ∧ (∀ a, kwargs !! "airspace" = Some v →
               call_add_layer (_onload T) _old_add_layer other_call m
                 (VAirspace a) kwargs w = Raise TypeError)
       ∧ (∀ f, kwargs !! "flight" = Some v →
               call_add_layer (_onload T) _old_add_layer other_call m
                 (VFlight f) kwargs w = Raise TypeError)
       ∧ (∀ p, kwargs !! "flightplan" = Some v →
               call_add_layer (_onload T) _old_add_layer other_call m
                 (VFlightPlan p) kwargs w = Raise TypeError)
       ∧ (∀ p, kwargs !! "point" = Some v →
               call_add_layer (_onload T) _old_add_layer other_call m
                 (VPoint p) kwargs w = Raise TypeError)
       ∧ (∀ sv, kwargs !! "sv" = Some v →
                call_add_layer (_onload T) _old_add_layer other_call m
                  (VStateVectors sv) kwargs w = Raise TypeError))
  ∧ (∀ sv (kwargs : Kwargs) v w,
       kwargs !! "point" = Some v →
       sv_points sv ≠ [] →
       sv_leaflet sv kwargs w = Raise TypeError).
Proof.
  split; [|split].
  - intros T old other m elt kwargs v w H. unfold call_add_layer.
    rewrite getattr_onload_add_layer. unfold bind, keyword_free.
    destruct H as [H|H]; rewrite H; [reflexivity|].
    by destruct (kwargs !! "_map").
  - intros T old other m kwargs v w.
    destruct (call_leaflet_onload T other kwargs)
      as (H1 & H2 & H3 & H4 & H5 & H6).
    repeat split; intros x Hx; unfold call_add_layer;
      rewrite getattr_onload_add_layer, map_add_layer_layer by reflexivity;
      rewrite ?H1, ?H2, ?H3, ?H4, ?H5, ?H6;
      unfold bind, keyword_free; rewrite Hx;
      by destruct (kwargs !! "_map"), (kwargs !! "elt").
  - intros sv kwargs v w Hk Hne. unfold sv_leaflet.
    destruct (sv_points sv) as [|[p callsign] pts]; [done|].
    apply bind_Raise. cbn [list_of]. apply bind_Raise.
    by apply bind_Raise, (keyword_free_Raise _ _ v).
Qed.

Lemma positional_parameter_named_witness :
  call_add_layer (_onload fresh_classes) ipyleaflet_add_layer no_other_call
    (VRef 0) (VFlight sample_flight) {[ "elt" := LInt 1 ]} one_map
  = Raise TypeError
  ∧ call_add_layer (_onload fresh_classes) ipyleaflet_add_layer no_other_call
      (VRef 0) (VFlight sample_flight) {[ "flight" := LInt 1 ]} one_map
    = Raise TypeError
  ∧ call_add_layer (_onload fresh_classes) ipyleaflet_add_layer no_other_call
      (VRef 0) (VPoint sample_point) {[ "point" := LInt 1 ]} one_map
    = Raise TypeError
  ∧ sv_leaflet sample_sv {[ "point" := LInt 1 ]} one_map = Raise TypeError.
Proof.
  destruct positional_parameter_named as (HM & HC & HS).
  destruct (HC fresh_classes ipyleaflet_add_layer no_other_call (VRef 0)
              {[ "flight" := LInt 1 ]} (LInt 1) one_map)
    as (_ & _ & HF & _).
  destruct (HC fresh_classes ipyleaflet_add_layer no_other_call (VRef 0)
              {[ "point" := LInt 1 ]} (LInt 1) one_map)
    as (_ & _ & _ & _ & HP & _).
  split; [|split; [|split]].
  - apply (HM fresh_classes ipyleaflet_add_layer no_other_call (VRef 0)
              (VFlight sample_flight) {[ "elt" := LInt 1 ]} (LInt 1) one_map).
    right. reflexivity.
  - apply HF. reflexivity.
  - apply HP. reflexivity.
  - apply (HS sample_sv {[ "point" := LInt 1 ]} (LInt 1) one_map);
      [reflexivity|discriminate].
Defined.
